(** * The [eth_*] JSON-RPC module of the Buidler EVM provider

    A shallow embedding of
    [packages/buidler-core/src/internal/buidler-evm/provider/modules/eth.ts]
    (class [EthModule]) together with the properties of its method
    dispatcher, parameter handling and request normalisation.

    Conventions of the embedding.
    - A [Buffer] is a list of bytes, a [BN] is a natural number ([N]).
    - A JavaScript [number] is an integer ([Z]); [BN.toNumber] gives the
      value itself below 2^53 and throws from there on, as bn.js does for a
      value that does not fit the 53 bits of a double.
    - An [async] method is a program of the monad [Prog]: it returns, throws,
      or calls the node and continues with the node's answer.  The node
      (interface [BuidlerNode]) is a handler that interprets those calls over
      a state of its own.
    - Code of the repository that lives outside [eth.ts] (the io-ts codecs and
      [validateParams] of [../input], the encoders of [../output]) is modelled
      from the specification and marked as such. *)

From Stdlib Require Import String Ascii List ZArith NArith Lia Bool.
From Stdlib Require Import Strings.Byte Strings.HexString.
Import ListNotations.

Local Open Scope string_scope.
Local Open Scope list_scope.

Set Implicit Arguments.
Set Warnings "-register-all".
Set Warnings "-notation-overridden".
Set Warnings "-notation-incompatible-prefix".

(** ** Domain values *)

Definition Buffer := list byte.
Definition BN := N.
Definition number := Z.

(** [new BN(buffer)]: the big-endian value of the bytes. *)
Definition BN_ofBuffer (b : Buffer) : BN :=
  fold_left (fun acc x => (acc * 256 + Byte.to_N x)%N) b 0%N.

(** The errors of [../errors], and any other JavaScript [Error] with its
    message. *)
Inductive RpcError : Type :=
| MethodNotFoundError (message : string)
| MethodNotSupportedError (message : string)
| InvalidInputError (message : string)
| InvalidArgumentsError (message : string)
| JsError (message : string).

Definition error_message (e : RpcError) : string :=
  match e with
  | MethodNotFoundError m | MethodNotSupportedError m
  | InvalidInputError m | InvalidArgumentsError m | JsError m => m
  end.

Definition Result (A : Type) : Type := (RpcError + A)%type.

(** The first natural number that [bn.toNumber()] refuses: 2^53. *)
Definition UNSAFE_NUMBER : N := 9007199254740992%N.

(** [bn.toNumber()]: the value as a JavaScript number, or the assertion
    failure of bn.js when it takes more than 53 bits. *)
Definition BN_toNumber (b : BN) : Result number :=
  if (b <? UNSAFE_NUMBER)%N then inr (Z.of_N b)
  else inl (JsError "Number can only safely store up to 53 bits").

(** A block tag: a block number or one of the three symbolic names. *)
Inductive BlockTag : Type :=
| BlockNumber (n : BN)
| Earliest
| Latest
| Pending.

Definition OptionalBlockTag := option BlockTag.

Record RpcCallRequest : Type := {
  call_from : option Buffer;
  call_to : option Buffer;
  call_gas : option BN;
  call_gasPrice : option BN;
  call_value : option BN;
  call_data : option Buffer
}.

Record RpcTransactionRequest : Type := {
  tx_from : Buffer;
  tx_to : option Buffer;
  tx_gas : option BN;
  tx_gasPrice : option BN;
  tx_value : option BN;
  tx_data : option Buffer;
  tx_nonce : option BN
}.

(** [LogAddress]: absent, one address, or a list of addresses. *)
Inductive LogAddressValue : Type :=
| OneAddress (a : Buffer)
| ManyAddresses (l : list Buffer).

Definition LogAddress := option LogAddressValue.

(** One slot of [LogTopics]: a hash, a list of alternatives, or [null]. *)
Inductive LogTopic : Type :=
| TopicHash (h : Buffer)
| TopicList (l : list (option Buffer))
| TopicNull.

Definition LogTopics := option (list LogTopic).

Record RpcFilterRequest : Type := {
  filter_fromBlock : OptionalBlockTag;
  filter_toBlock : OptionalBlockTag;
  filter_address : LogAddress;
  filter_topics : LogTopics;
  filter_blockHash : option Buffer
}.

Definition OptionalRpcFilterRequest := option RpcFilterRequest.

Inductive RpcSubscribeRequest : Type :=
| NewHeads
| NewPendingTransactions
| Logs.

(** The node-level request objects of [../node]. *)
Record CallParams : Type := {
  cp_to : Buffer;
  cp_from : Buffer;
  cp_data : Buffer;
  cp_gasLimit : BN;
  cp_gasPrice : BN;
  cp_value : BN
}.

Record TransactionParams : Type := {
  tp_to : Buffer;
  tp_from : Buffer;
  tp_gasLimit : BN;
  tp_gasPrice : BN;
  tp_value : BN;
  tp_data : Buffer;
  tp_nonce : BN
}.

Record FilterParams : Type := {
  fp_fromBlock : number;
  fp_toBlock : number;
  fp_topics : list (option (list (option Buffer)));
  fp_addresses : list Buffer
}.

(** The sentinel of [_extractBlock] for the head of the chain. *)
Definition LATEST_BLOCK : number := (-1)%Z.

(** ** Raw JSON-RPC arguments *)

(** The identity of a JavaScript function value (a subscription callback). *)
Definition Callback := nat.

Inductive JsValue : Type :=
| JUndefined
| JNull
| JBoolean (b : bool)
| JNumber (n : Z)
| JString (s : string)
| JArray (items : list JsValue)
| JObject (fields : list (string * JsValue))
| JFunction (f : Callback).

(** [typeof v === "function"] *)
Definition isFunction (v : JsValue) : bool :=
  match v with JFunction _ => true | _ => false end.

(** ** Hexadecimal wire encodings *)

Module Hex.

Definition isDigit (c : ascii) : bool :=
  match HexString.ascii_to_digit c with Some _ => true | None => false end.

Fixpoint allDigits (s : string) : bool :=
  match s with
  | EmptyString => true
  | String c rest => isDigit c && allDigits rest
  end.

Definition digit (n : N) : ascii :=
  match n with
  | 0 => "0" | 1 => "1" | 2 => "2" | 3 => "3" | 4 => "4" | 5 => "5"
  | 6 => "6" | 7 => "7" | 8 => "8" | 9 => "9" | 10 => "a" | 11 => "b"
  | 12 => "c" | 13 => "d" | 14 => "e" | _ => "f"
  end%N%char.

(** Two lowercase digits per byte. *)
Fixpoint ofBytes (b : Buffer) : string :=
  match b with
  | [] => EmptyString
  | x :: rest =>
      String (digit (Byte.to_N x / 16)) (String (digit (Byte.to_N x mod 16)) (ofBytes rest))
  end.

Fixpoint toBytes (s : string) : option Buffer :=
  match s with
  | EmptyString => Some []
  | String _ EmptyString => None
  | String hi (String lo rest) =>
      match HexString.ascii_to_digit hi, HexString.ascii_to_digit lo, toBytes rest with
      | Some h, Some l, Some bs =>
          match Byte.of_N (16 * h + l) with
          | Some x => Some (x :: bs)
          | None => None
          end
      | _, _, _ => None
      end
  end.

(** The digits after a leading [0x], when there is one. *)
Definition stripPrefix (s : string) : option string :=
  match s with
  | String c0 (String c1 digits) =>
      if (Ascii.eqb c0 "0" && Ascii.eqb c1 "x")%bool then Some digits else None
  | _ => None
  end.

End Hex.

(** Modelled from the spec: [numberToRpcQuantity] of [../output], absent from
    the sources (spec 4.1, [encodeQuantity]): hexadecimal with the [0x] prefix
    and no leading zero digit, zero being ["0x0"]. *)
Definition numberToRpcQuantity (n : N) : string := HexString.of_N n.

(** Modelled from the spec: [bufferToRpcData] of [../output], absent from the
    sources (spec 4.1, [encodeData]): [0x] followed by lowercase hexadecimal,
    the empty sequence being ["0x"]. *)
Definition bufferToRpcData (b : Buffer) : string := "0x" ++ Hex.ofBytes b.

(** Modelled from the spec: the decoder of the [rpcQuantity] codec of
    [../input], absent from the sources (spec 4.1, [decodeQuantity]): strict,
    it rejects characters that are not hexadecimal digits and a leading zero
    digit (other than in ["0x0"] itself). *)
Definition decodeQuantity (s : string) : option BN :=
  match Hex.stripPrefix s with
  | Some (String d rest as digits) =>
      if (Hex.allDigits digits && (negb (Ascii.eqb d "0") || String.eqb rest EmptyString))%bool
      then Some (HexString.Raw.to_N digits 0%N)
      else None
  | _ => None
  end.

(** Modelled from the spec: the decoder of the [rpcData] codec of [../input],
    absent from the sources (spec 4.1, [decodeData]): strict, it rejects
    characters that are not hexadecimal digits and an odd number of digits. *)
Definition decodeData (s : string) : option Buffer :=
  match Hex.stripPrefix s with
  | Some digits => Hex.toBytes digits
  | None => None
  end.

(** ethereumjs-util: [bufferToHex], [zeroAddress] and [toBuffer] on a string
    ([toBuffer] accepts a [0x]-prefixed hexadecimal string, pads it to an even
    number of digits, and throws on any other string). *)
Definition bufferToHex (b : Buffer) : string := "0x" ++ Hex.ofBytes b.

Definition zeroAddress : string := "0x0000000000000000000000000000000000000000".

Definition padToEven (digits : string) : string :=
  if Nat.even (String.length digits) then digits else String "0" digits.

Definition toBuffer (s : string) : Result Buffer :=
  match Hex.stripPrefix s with
  | Some digits =>
      match Hex.toBytes (padToEven digits) with
      | Some b => inr b
      | None =>
          inl (JsError ("Cannot convert string to buffer. toBuffer only supports 0x-prefixed hex strings and this string was given: " ++ s))
      end
  | None =>
      inl (JsError ("Cannot convert string to buffer. toBuffer only supports 0x-prefixed hex strings and this string was given: " ++ s))
  end.

(** ** The codecs of [../input] *)

Module Decoders.

Local Notation "x <- a ;; b" :=
  (match a with Some x => b | None => None end)
    (at level 61, a at next level, right associativity).

(** Modelled from the spec: how the object codecs of [../input] read a member
    (data model, section 3); a missing member reads as [undefined]. *)
Definition field (name : string) (fields : list (string * JsValue)) : JsValue :=
  match find (fun kv => String.eqb (fst kv) name) fields with
  | Some kv => snd kv
  | None => JUndefined
  end.

(** Modelled from the spec: an optional member or argument of [../input]
    (section 3): [undefined] is accepted as absence, anything else goes to the
    codec. *)
Definition optional {A : Type} (dec : JsValue -> option A) (v : JsValue)
  : option (option A) :=
  match v with
  | JUndefined => Some None
  | _ => option_map (@Some A) (dec v)
  end.

(** Modelled from the spec: a sequence codec of [../input] (section 3), which
    decodes every element in order and fails when one fails. *)
Fixpoint decodeAll {A : Type} (dec : JsValue -> option A) (l : list JsValue)
  : option (list A) :=
  match l with
  | [] => Some []
  | v :: rest =>
      x <- dec v ;;
      xs <- decodeAll dec rest ;;
      Some (x :: xs)
  end.

(** Modelled from the spec: the [rpcQuantity] codec of [../input], a string in
    the Quantity encoding (4.1). *)
Definition quantity (v : JsValue) : option BN :=
  match v with JString s => decodeQuantity s | _ => None end.

(** Modelled from the spec: the [rpcData] codec of [../input], a string in the
    Data encoding (4.1). *)
Definition data (v : JsValue) : option Buffer :=
  match v with JString s => decodeData s | _ => None end.

(** Modelled from the spec: the fixed-length specialisations of Data in
    [../input] (section 3). *)
Definition fixedData (len : nat) (v : JsValue) : option Buffer :=
  b <- data v ;;
  if Nat.eqb (length b) len then Some b else None.

(** Modelled from the spec: the [rpcAddress] codec of [../input], Data of 20
    bytes (section 3). *)
Definition address : JsValue -> option Buffer := fixedData 20.
(** Modelled from the spec: the [rpcHash] codec of [../input], Data of 32
    bytes (section 3). *)
Definition hash : JsValue -> option Buffer := fixedData 32.

(** Modelled from the spec: the boolean argument kind (4.2), io-ts
    [t.boolean]. *)
Definition boolean (v : JsValue) : option bool :=
  match v with JBoolean b => Some b | _ => None end.

(** Modelled from the spec: the BlockTag of [../input] (section 3), a block
    number as a Quantity or one of "earliest", "latest", "pending". *)
Definition blockTag (v : JsValue) : option BlockTag :=
  match v with
  | JString s =>
      if String.eqb s "earliest" then Some Earliest
      else if String.eqb s "latest" then Some Latest
      else if String.eqb s "pending" then Some Pending
      else option_map BlockNumber (decodeQuantity s)
  | _ => None
  end.

(** Modelled from the spec: the [rpcCallRequest] codec of [../input]
    (CallRequest, section 3), every field optional. *)
Definition callRequest (v : JsValue) : option RpcCallRequest :=
  match v with
  | JObject o =>
      from <- optional address (field "from" o) ;;
      to <- optional address (field "to" o) ;;
      gas <- optional quantity (field "gas" o) ;;
      gasPrice <- optional quantity (field "gasPrice" o) ;;
      value <- optional quantity (field "value" o) ;;
      dat <- optional data (field "data" o) ;;
      Some {| call_from := from; call_to := to; call_gas := gas;
              call_gasPrice := gasPrice; call_value := value; call_data := dat |}
  | _ => None
  end.

(** Modelled from the spec: the [rpcTransactionRequest] codec of [../input]
    (TransactionRequest, section 3), [from] mandatory. *)
Definition transactionRequest (v : JsValue) : option RpcTransactionRequest :=
  match v with
  | JObject o =>
      from <- address (field "from" o) ;;
      to <- optional address (field "to" o) ;;
      gas <- optional quantity (field "gas" o) ;;
      gasPrice <- optional quantity (field "gasPrice" o) ;;
      value <- optional quantity (field "value" o) ;;
      dat <- optional data (field "data" o) ;;
      nonce <- optional quantity (field "nonce" o) ;;
      Some {| tx_from := from; tx_to := to; tx_gas := gas; tx_gasPrice := gasPrice;
              tx_value := value; tx_data := dat; tx_nonce := nonce |}
  | _ => None
  end.

(** Modelled from the spec: the address member of a RawFilterRequest
    (section 3): absent, one Address, or a sequence of Address. *)
Definition logAddress (v : JsValue) : option LogAddress :=
  match v with
  | JUndefined => Some None
  | JArray l => option_map (fun a => Some (ManyAddresses a)) (decodeAll address l)
  | _ => option_map (fun a => Some (OneAddress a)) (address v)
  end.

(** Modelled from the spec: one alternative of a topic slot (section 3), a
    Hash or [null]. *)
Definition nullableHash (v : JsValue) : option (option Buffer) :=
  match v with
  | JNull => Some None
  | _ => option_map (@Some Buffer) (hash v)
  end.

(** Modelled from the spec: one topic slot of a RawFilterRequest (section 3):
    a Hash, a sequence of alternatives, or [null]. *)
Definition logTopic (v : JsValue) : option LogTopic :=
  match v with
  | JNull => Some TopicNull
  | JArray l => option_map TopicList (decodeAll nullableHash l)
  | _ => option_map TopicHash (hash v)
  end.

(** Modelled from the spec: the topics member of a RawFilterRequest
    (section 3): absent, or a sequence of slots. *)
Definition logTopics (v : JsValue) : option LogTopics :=
  match v with
  | JUndefined => Some None
  | JArray l => option_map (@Some (list LogTopic)) (decodeAll logTopic l)
  | _ => None
  end.

(** Modelled from the spec: the [rpcFilterRequest] codec of [../input]
    (RawFilterRequest, section 3). *)
Definition filterRequest (v : JsValue) : option RpcFilterRequest :=
  match v with
  | JObject o =>
      fromBlock <- optional blockTag (field "fromBlock" o) ;;
      toBlock <- optional blockTag (field "toBlock" o) ;;
      addr <- logAddress (field "address" o) ;;
      topics <- logTopics (field "topics" o) ;;
      blockHash <- optional hash (field "blockHash" o) ;;
      Some {| filter_fromBlock := fromBlock; filter_toBlock := toBlock;
              filter_address := addr; filter_topics := topics;
              filter_blockHash := blockHash |}
  | _ => None
  end.

(** Modelled from the spec: the [rpcSubscribeRequest] codec of [../input], one
    of the three subscription kinds (4.5). *)
Definition subscribeRequest (v : JsValue) : option RpcSubscribeRequest :=
  match v with
  | JString s =>
      if String.eqb s "newHeads" then Some NewHeads
      else if String.eqb s "newPendingTransactions" then Some NewPendingTransactions
      else if String.eqb s "logs" then Some Logs
      else None
  | _ => None
  end.

End Decoders.

(** Modelled from the spec: the codecs that [eth.ts] imports from [../input],
    absent from the sources.  Their shapes follow the data model of the spec
    (section 3) and their decoders the wire encodings of spec 4.1; the two
    [optional...] codecs are the ones marked tail-optional (spec 4.2). *)
Inductive Codec : Type :=
| rpcQuantity
| rpcData
| rpcAddress
| rpcHash
| t_boolean
| rpcCallRequest
| rpcTransactionRequest
| rpcFilterRequest
| optionalRpcFilterRequest
| optionalBlockTag
| rpcSubscribeRequest
| rpcUnknown.

(** Modelled from the spec: the domain value that each codec of [../input]
    decodes to (section 3). *)
Definition typeOf (c : Codec) : Type :=
  match c with
  | rpcQuantity => BN
  | rpcData | rpcAddress | rpcHash => Buffer
  | t_boolean => bool
  | rpcCallRequest => RpcCallRequest
  | rpcTransactionRequest => RpcTransactionRequest
  | rpcFilterRequest => RpcFilterRequest
  | optionalRpcFilterRequest => OptionalRpcFilterRequest
  | optionalBlockTag => OptionalBlockTag
  | rpcSubscribeRequest => RpcSubscribeRequest
  | rpcUnknown => JsValue
  end.

(** Modelled from the spec: the decoder of each codec of [../input]. *)
Definition decode (c : Codec) : JsValue -> option (typeOf c) :=
  match c return JsValue -> option (typeOf c) with
  | rpcQuantity => Decoders.quantity
  | rpcData => Decoders.data
  | rpcAddress => Decoders.address
  | rpcHash => Decoders.hash
  | t_boolean => Decoders.boolean
  | rpcCallRequest => Decoders.callRequest
  | rpcTransactionRequest => Decoders.transactionRequest
  | rpcFilterRequest => Decoders.filterRequest
  | optionalRpcFilterRequest => Decoders.optional Decoders.filterRequest
  | optionalBlockTag => Decoders.optional Decoders.blockTag
  | rpcSubscribeRequest => Decoders.subscribeRequest
  | rpcUnknown => @Some JsValue
  end.

(** Modelled from the spec: the codecs marked tail-optional (4.2), those whose
    trailing arguments may be left out. *)
Definition tailOptional (c : Codec) : bool :=
  match c with
  | optionalRpcFilterRequest | optionalBlockTag => true
  | _ => false
  end.

(** Modelled from the spec: the typed tuple that [validateParams] returns for
    a schema (4.2). *)
Fixpoint Tuple (schema : list Codec) : Type :=
  match schema with
  | [] => unit
  | c :: rest => (typeOf c * Tuple rest)%type
  end.

(** Modelled from the spec: how many codecs at the end of the schema are
    tail-optional (4.2). *)
Fixpoint optionalTail (schema : list Codec) : nat :=
  match schema with
  | [] => 0
  | c :: rest =>
      if (tailOptional c && Nat.eqb (optionalTail rest) (length rest))%bool
      then S (optionalTail rest)
      else optionalTail rest
  end.

(** Modelled from the spec: the number of required arguments of a schema
    (4.2), its length less its optional tail. *)
Definition requiredParams (schema : list Codec) : nat :=
  length schema - optionalTail schema.

(** Modelled from the spec: the per-position decoding of [validateParams]
    (4.2); a position past the end of the arguments reads as [undefined]. *)
Fixpoint decodeParams (schema : list Codec) (params : list JsValue)
  : Result (Tuple schema) :=
  match schema return Result (Tuple schema) with
  | [] => inr tt
  | c :: rest =>
      match decode c (hd JUndefined params) with
      | None => inl (InvalidInputError "Invalid argument")
      | Some v =>
          match decodeParams rest (tl params) with
          | inl e => inl e
          | inr vs => inr (v, vs)
          end
      end
  end.

(** Modelled from the spec: [validateParams] of [../input], absent from the
    sources (spec 4.2): the arguments are checked against the ordered schema
    of the method; more arguments than the schema has, or fewer than its
    required ones, fail, and so does an argument that its codec rejects; the
    failure is an InvalidInput error. *)
Definition validateParams (schema : list Codec) (params : list JsValue)
  : Result (Tuple schema) :=
  if Nat.ltb (length schema) (length params)
  then inl (InvalidInputError "Too many arguments")
  else if Nat.ltb (length params) (requiredParams schema)
  then inl (InvalidInputError "Too few arguments")
  else decodeParams schema params.

(** ** Helpers for JavaScript library functions *)

(** [buffer.equals(other)] *)
Definition Buffer_equals (a b : Buffer) : bool :=
  if list_eq_dec Byte.byte_eq_dec a b then true else false.

(** [string.includes(sub)] *)
Fixpoint includes (s sub : string) : bool :=
  if String.prefix sub s then true
  else match s with
       | EmptyString => false
       | String _ rest => includes rest sub
       end.

(** [array.findIndex(p)]: the first index whose element satisfies [p], or
    [-1]. *)
Fixpoint findIndexFrom {A : Type} (p : A -> bool) (l : list A) (i : number) : number :=
  match l with
  | [] => (-1)%Z
  | x :: rest => if p x then i else findIndexFrom p rest (i + 1)%Z
  end.

Definition findIndex {A : Type} (p : A -> bool) (l : list A) : number :=
  findIndexFrom p l 0%Z.

(** [array[i]] for a number [i]; [undefined] out of range. *)
Definition at_index {A : Type} (l : list A) (i : number) : option A :=
  if (i <? 0)%Z then None else nth_error l (Z.to_nat i).

(** The signature object returned by the node's [signPersonalMessage]. *)
Record ECDSASignature : Type := {
  sig_v : number;
  sig_r : Buffer;
  sig_s : Buffer
}.

(** What [eth.ts] uses of ethereumjs-tx, ethereumjs-block, ethereumjs-common
    and ethereumjs-util, and the formatters of [../output] whose results it
    passes on untouched. *)
Class Externals : Type := {
  Transaction : Type;
  (** [new Transaction(rawTx, { common })]: the decoded transaction, or the
      message of the [Error] that the constructor throws. *)
  Transaction_new : Buffer -> string + Transaction;
  (** [tx.hash()], the signature included. *)
  Transaction_hash : Transaction -> Buffer;
  Block : Type;
  Block_header_number : Block -> Buffer;
  Block_transactions : Block -> list Transaction;
  (** [this._common.chainId()] *)
  common_chainId : N;
  toRpcSig : number -> Buffer -> Buffer -> string;
  TxBlockResult : Type;
  RpcBlockOutput : Type;
  RpcTransactionOutput : Type;
  RpcTransactionReceiptOutput : Type;
  RpcLogOutput : Type;
  getRpcBlock : Block -> BN -> bool -> RpcBlockOutput;
  getRpcTransaction : Transaction -> option Block -> option number -> RpcTransactionOutput;
  getRpcTransactionReceipt :
    Transaction -> Block -> number -> option TxBlockResult -> RpcTransactionReceiptOutput
}.

(** ** The node and the programs that talk to it *)

Section Node.

Context {ext : Externals}.

(** What [eth_getFilterChanges] gets from the node: block or transaction
    hashes, or logs. *)
Inductive FilterChanges : Type :=
| HashChanges (hashes : list string)
| LogChanges (logs : list RpcLogOutput).

(** The methods of [BuidlerNode] that the module calls, each with the type
    of its answer. *)
Inductive NodeCall : Type -> Type :=
| getLocalAccountAddresses : NodeCall (list string)
| getLatestBlock : NodeCall Block
| runCall (callParams : CallParams) : NodeCall Buffer
| getCoinbaseAddress : NodeCall Buffer
| estimateGas (txParams : TransactionParams) : NodeCall BN
| getGasPrice : NodeCall BN
| getAccountBalance (address : Buffer) : NodeCall BN
| getBlockByHash (hash : Buffer) : NodeCall (option Block)
| getBlockTotalDifficulty (block : Block) : NodeCall BN
| getBlockByNumber (blockNumber : option BN) : NodeCall (option Block)
| getCode (address : Buffer) : NodeCall Buffer
| getFilterChanges (id : number) : NodeCall (option FilterChanges)
| getFilterLogs (id : number) : NodeCall (option (list RpcLogOutput))
| getLogs (filterParams : FilterParams) : NodeCall (list RpcLogOutput)
| getStorageAt (address : Buffer) (slot : BN) : NodeCall Buffer
| getSuccessfulTransactionByHash (hash : Buffer) : NodeCall (option Transaction)
| getBlockByTransactionHash (hash : Buffer) : NodeCall (option Block)
| getTxBlockResults (block : Block) : NodeCall (option TxBlockResult)
| newBlockFilter (callback : option Callback) : NodeCall N
| newFilter (filterParams : FilterParams) (callback : option Callback) : NodeCall N
| newPendingTransactionFilter (callback : option Callback) : NodeCall N
| getPendingTransactions : NodeCall (list Transaction)
| runTransactionInNewBlock (tx : Transaction) : NodeCall unit
| getSignedTransaction (txParams : TransactionParams) : NodeCall Transaction
| signPersonalMessage (address : Buffer) (data : Buffer) : NodeCall ECDSASignature
| signTypedData (address : Buffer) (typedData : JsValue) : NodeCall string
| uninstallFilter (id : number) (subscription : bool) : NodeCall bool
| getAccountNonce (address : Buffer) : NodeCall BN
| getBlockGasLimit : NodeCall BN.

(** An asynchronous computation: it returns, throws, or awaits a call to the
    node and goes on with the answer. *)
Inductive Prog (A : Type) : Type :=
| Ret (a : A)
| Throw (e : RpcError)
| Call (X : Type) (c : NodeCall X) (k : X -> Prog A).

Arguments Ret {A} a.
Arguments Throw {A} e.
Arguments Call {A X} c k.

Fixpoint bind {A B : Type} (p : Prog A) (f : A -> Prog B) : Prog B :=
  match p with
  | Ret a => f a
  | Throw e => Throw e
  | Call c k => Call c (fun x => bind (k x) f)
  end.

(** [await this._node.method(...)] *)
Definition await {X : Type} (c : NodeCall X) : Prog X := Call c (fun x => Ret x).

(** A synchronous result inside an [async] method. *)
Definition lift {A : Type} (r : Result A) : Prog A :=
  match r with
  | inl e => Throw e
  | inr a => Ret a
  end.

Definition mapP {A B : Type} (f : A -> B) (p : Prog A) : Prog B :=
  bind p (fun a => Ret (f a)).

(** The node: every call answers or throws, and moves the node's state. *)
Definition Handler (S : Type) : Type :=
  forall X : Type, NodeCall X -> S -> Result X * S.

Definition Invocation : Type := sigT NodeCall.

Definition invocation {X : Type} (c : NodeCall X) : Invocation := existT _ X c.

(** Running a program against a node from a state: the outcome, the state
    the node is left in, and the calls the node received, in order. *)
Fixpoint run {S A : Type} (h : Handler S) (p : Prog A) (s : S)
  : Result A * S * list Invocation :=
  match p with
  | Ret a => (inr a, s, [])
  | Throw e => (inl e, s, [])
  | Call c k =>
      match h _ c s with
      | (inl e, s') => (inl e, s', [invocation c])
      | (inr x, s') =>
          match run h (k x) s' with
          | (r, s'', calls) => (r, s'', invocation c :: calls)
          end
      end
  end.

(** The errors that the program itself can throw (those of the node apart). *)
Inductive Throws {A : Type} : Prog A -> RpcError -> Prop :=
| Throws_here : forall e, Throws (Throw e) e
| Throws_later : forall X (c : NodeCall X) k x e,
    Throws (k x) e -> Throws (Call c k) e.

End Node.

Arguments Ret {ext A} a.
Arguments Throw {ext A} e.
Arguments Call {ext A X} c k.

Declare Scope prog_scope.
Delimit Scope prog_scope with prog.
Notation "x <- p ;; q" := (bind p (fun x => q))
  (at level 61, p at next level, right associativity) : prog_scope.
Notation "p ;; q" := (bind p (fun _ => q))
  (at level 61, right associativity) : prog_scope.
Notation "' pat <- p ;; q" := (bind p (fun x => match x with pat => q end))
  (at level 61, pat pattern, p at next level, right associativity) : prog_scope.

(** ** The methods of [EthModule] *)

Section EthModule.

Context {ext : Externals}.

Local Open Scope prog_scope.

(** *** Utility methods *)

Definition _validateBlockTag (blockTag : OptionalBlockTag) : Result unit :=
  match blockTag with
  | None | Some Latest | Some Pending => inr tt
  | Some _ => inl (InvalidInputError "Only latest and pending block params are supported")
  end.

Definition _extractBlock (blockTag : OptionalBlockTag) : Result number :=
  match blockTag with
  | Some Earliest => inr 0%Z
  | None | Some Latest => inr LATEST_BLOCK
  | Some Pending => inl (InvalidArgumentsError "pending not supported")
  | Some (BlockNumber n) => BN_toNumber n
  end.

(** The [for ... of] loop of [_extractLogTopics]: each slot is pushed onto
    the result, a bare hash wrapped into a list of one. *)
Definition _extractLogTopics (logTopics : LogTopics)
  : list (option (list (option Buffer))) :=
  match logTopics with
  | None => []
  | Some [] => []
  | Some slots =>
      fold_left
        (fun topics logTopic =>
           match logTopic with
           | TopicHash h => topics ++ [Some [Some h]]
           | TopicList l => topics ++ [Some l]
           | TopicNull => topics ++ [None]
           end)
        slots []
  end.

Definition _extractLogAddresses (address : LogAddress) : list Buffer :=
  match address with
  | None => []
  | Some (OneAddress a) => [a]
  | Some (ManyAddresses l) => l
  end.

Definition _getDefaultCallFrom : Prog Buffer :=
  localAccounts <- await getLocalAccountAddresses ;;
  match localAccounts with
  | [] => lift (toBuffer zeroAddress)
  | first :: _ => lift (toBuffer first)
  end.

Definition _rpcCallRequestToNodeCallParams (rpcCall : RpcCallRequest)
  : Prog CallParams :=
  let to := match call_to rpcCall with Some v => v | None => [] end in
  from <- match call_from rpcCall with
          | Some v => Ret v
          | None => _getDefaultCallFrom
          end ;;
  let data := match call_data rpcCall with Some v => v | None => [] end in
  gasLimit <- match call_gas rpcCall with
              | Some v => Ret v
              | None => await getBlockGasLimit
              end ;;
  gasPrice <- match call_gasPrice rpcCall with
              | Some v => Ret v
              | None => await getGasPrice
              end ;;
  let value := match call_value rpcCall with Some v => v | None => 0%N end in
  Ret {| cp_to := to; cp_from := from; cp_data := data;
         cp_gasLimit := gasLimit; cp_gasPrice := gasPrice; cp_value := value |}.

Definition _rpcTransactionRequestToNodeTransactionParams
  (rpcTx : RpcTransactionRequest) : Prog TransactionParams :=
  let to := match tx_to rpcTx with Some v => v | None => [] end in
  let from := tx_from rpcTx in
  gasLimit <- match tx_gas rpcTx with
              | Some v => Ret v
              | None => await getBlockGasLimit
              end ;;
  gasPrice <- match tx_gasPrice rpcTx with
              | Some v => Ret v
              | None => await getGasPrice
              end ;;
  let value := match tx_value rpcTx with Some v => v | None => 0%N end in
  let data := match tx_data rpcTx with Some v => v | None => [] end in
  nonce <- match tx_nonce rpcTx with
           | Some v => Ret v
           | None => await (getAccountNonce (tx_from rpcTx))
           end ;;
  Ret {| tp_to := to; tp_from := from; tp_gasLimit := gasLimit;
         tp_gasPrice := gasPrice; tp_value := value; tp_data := data;
         tp_nonce := nonce |}.

(** The assignments [filter.fromBlock = ...; filter.toBlock = ...]. *)
Definition setBlockRange (filter : RpcFilterRequest) (n : BN) : RpcFilterRequest :=
  {| filter_fromBlock := Some (BlockNumber n);
     filter_toBlock := Some (BlockNumber n);
     filter_address := filter_address filter;
     filter_topics := filter_topics filter;
     filter_blockHash := filter_blockHash filter |}.

Definition isSome {A : Type} (o : option A) : bool :=
  match o with Some _ => true | None => false end.

Definition _rpcFilterRequestToGetLogsParams (filter : RpcFilterRequest)
  : Prog FilterParams :=
  filter <- match filter_blockHash filter with
            | Some blockHash =>
                if (isSome (filter_fromBlock filter) || isSome (filter_toBlock filter))%bool
                then Throw (InvalidArgumentsError
                              "blockHash is mutually exclusive with fromBlock/toBlock")
                else
                  block <- await (getBlockByHash blockHash) ;;
                  match block with
                  | None => Throw (InvalidArgumentsError "blockHash cannot be found")
                  | Some block =>
                      Ret (setBlockRange filter (BN_ofBuffer (Block_header_number block)))
                  end
            | None => Ret filter
            end ;;
  fromBlock <- lift (_extractBlock (filter_fromBlock filter)) ;;
  toBlock <- lift (_extractBlock (filter_toBlock filter)) ;;
  Ret {| fp_fromBlock := fromBlock;
         fp_toBlock := toBlock;
         fp_topics := _extractLogTopics (filter_topics filter);
         fp_addresses := _extractLogAddresses (filter_address filter) |}.

(** *** The parameters and the action of each method *)

(** eth_accounts *)

Definition _accountsParams (params : list JsValue) : Result (Tuple []) :=
  validateParams [] params.

Definition _accountsAction : Prog (list string) :=
  await getLocalAccountAddresses.

(** eth_blockNumber *)

Definition _blockNumberParams (params : list JsValue) : Result (Tuple []) :=
  validateParams [] params.

Definition _blockNumberAction : Prog string :=
  block <- await getLatestBlock ;;
  let blockNumber := BN_ofBuffer (Block_header_number block) in
  Ret (numberToRpcQuantity blockNumber).

(** eth_call *)

Definition _callParams (params : list JsValue)
  : Result (Tuple [rpcCallRequest; optionalBlockTag]) :=
  validateParams [rpcCallRequest; optionalBlockTag] params.

Definition _callAction (rpcCall : RpcCallRequest) (blockTag : OptionalBlockTag)
  : Prog string :=
  lift (_validateBlockTag blockTag) ;;
  callParams <- _rpcCallRequestToNodeCallParams rpcCall ;;
  returnData <- await (runCall callParams) ;;
  Ret (bufferToRpcData returnData).

(** eth_chainId *)

Definition _chainIdParams (params : list JsValue) : Result (Tuple []) :=
  validateParams [] params.

Definition _chainIdAction : Prog string :=
  Ret (numberToRpcQuantity common_chainId).

(** eth_coinbase *)

Definition _coinbaseParams (params : list JsValue) : Result (Tuple []) :=
  validateParams [] params.

Definition _coinbaseAction : Prog string :=
  coinbase <- await getCoinbaseAddress ;;
  Ret (bufferToHex coinbase).

(** eth_estimateGas *)

Definition _estimateGasParams (params : list JsValue)
  : Result (Tuple [rpcTransactionRequest; optionalBlockTag]) :=
  validateParams [rpcTransactionRequest; optionalBlockTag] params.

Definition _estimateGasAction (transactionRequest : RpcTransactionRequest)
  (blockTag : OptionalBlockTag) : Prog string :=
  lift (_validateBlockTag blockTag) ;;
  txParams <- _rpcTransactionRequestToNodeTransactionParams transactionRequest ;;
  gas <- await (estimateGas txParams) ;;
  Ret (numberToRpcQuantity gas).

(** eth_gasPrice *)

Definition _gasPriceParams (params : list JsValue) : Result (Tuple []) :=
  validateParams [] params.

Definition _gasPriceAction : Prog string :=
  gasPrice <- await getGasPrice ;;
  Ret (numberToRpcQuantity gasPrice).

(** eth_getBalance *)

Definition _getBalanceParams (params : list JsValue)
  : Result (Tuple [rpcAddress; optionalBlockTag]) :=
  validateParams [rpcAddress; optionalBlockTag] params.

Definition _getBalanceAction (address : Buffer) (blockTag : OptionalBlockTag)
  : Prog string :=
  lift (_validateBlockTag blockTag) ;;
  balance <- await (getAccountBalance address) ;;
  Ret (numberToRpcQuantity balance).

(** eth_getBlockByHash *)

Definition _getBlockByHashParams (params : list JsValue)
  : Result (Tuple [rpcHash; t_boolean]) :=
  validateParams [rpcHash; t_boolean] params.

Definition _getBlockByHashAction (hash : Buffer) (includeTransactions : bool)
  : Prog (option RpcBlockOutput) :=
  block <- await (getBlockByHash hash) ;;
  match block with
  | None => Ret None
  | Some block =>
      totalDifficulty <- await (getBlockTotalDifficulty block) ;;
      Ret (Some (getRpcBlock block totalDifficulty includeTransactions))
  end.

(** eth_getBlockByNumber.  A tag that is a string is one of the three names;
    any other tag, a block number or [undefined], goes to the node as it
    is. *)

Definition _getBlockByNumberParams (params : list JsValue)
  : Result (Tuple [optionalBlockTag; t_boolean]) :=
  validateParams [optionalBlockTag; t_boolean] params.

Definition _getBlockByNumberAction (tag : OptionalBlockTag)
  (includeTransactions : bool) : Prog (option RpcBlockOutput) :=
  block <- match tag with
           | Some Earliest | Some Pending =>
               Throw (InvalidInputError
                        "eth_getBlockByNumber doesn't support earliest nor pending ")
           | Some Latest => mapP (@Some Block) (await getLatestBlock)
           | Some (BlockNumber n) => await (getBlockByNumber (Some n))
           | None => await (getBlockByNumber None)
           end ;;
  match block with
  | None => Ret None
  | Some block =>
      totalDifficulty <- await (getBlockTotalDifficulty block) ;;
      Ret (Some (getRpcBlock block totalDifficulty includeTransactions))
  end.

(** eth_getBlockTransactionCountByHash *)

Definition _getBlockTransactionCountByHashParams (params : list JsValue)
  : Result (Tuple [rpcHash]) :=
  validateParams [rpcHash] params.

Definition _getBlockTransactionCountByHashAction (hash : Buffer)
  : Prog (option string) :=
  block <- await (getBlockByHash hash) ;;
  match block with
  | None => Ret None
  | Some block =>
      Ret (Some (numberToRpcQuantity (N.of_nat (length (Block_transactions block)))))
  end.

(** eth_getBlockTransactionCountByNumber *)

Definition _getBlockTransactionCountByNumberParams (params : list JsValue)
  : Result (Tuple [rpcQuantity]) :=
  validateParams [rpcQuantity] params.

Definition _getBlockTransactionCountByNumberAction (blockNumber : BN)
  : Prog (option string) :=
  block <- await (getBlockByNumber (Some blockNumber)) ;;
  match block with
  | None => Ret None
  | Some block =>
      Ret (Some (numberToRpcQuantity (N.of_nat (length (Block_transactions block)))))
  end.

(** eth_getCode *)

Definition _getCodeParams (params : list JsValue)
  : Result (Tuple [rpcAddress; optionalBlockTag]) :=
  validateParams [rpcAddress; optionalBlockTag] params.

Definition _getCodeAction (address : Buffer) (blockTag : OptionalBlockTag)
  : Prog string :=
  lift (_validateBlockTag blockTag) ;;
  code <- await (getCode address) ;;
  Ret (bufferToRpcData code).

(** eth_getFilterChanges *)

Definition _getFilterChangesParams (params : list JsValue)
  : Result (Tuple [rpcQuantity]) :=
  validateParams [rpcQuantity] params.

Definition _getFilterChangesAction (filterId : BN) : Prog (option FilterChanges) :=
  id <- lift (BN_toNumber filterId) ;;
  changes <- await (getFilterChanges id) ;;
  match changes with
  | None => Ret None
  | Some changes => Ret (Some changes)
  end.

(** eth_getFilterLogs *)

Definition _getFilterLogsParams (params : list JsValue)
  : Result (Tuple [rpcQuantity]) :=
  validateParams [rpcQuantity] params.

Definition _getFilterLogsAction (filterId : BN)
  : Prog (option (list RpcLogOutput)) :=
  id <- lift (BN_toNumber filterId) ;;
  changes <- await (getFilterLogs id) ;;
  match changes with
  | None => Ret None
  | Some changes => Ret (Some changes)
  end.

(** eth_getLogs *)

Definition _getLogsParams (params : list JsValue)
  : Result (Tuple [rpcFilterRequest]) :=
  validateParams [rpcFilterRequest] params.

Definition _getLogsAction (filter : RpcFilterRequest) : Prog (list RpcLogOutput) :=
  filterParams <- _rpcFilterRequestToGetLogsParams filter ;;
  await (getLogs filterParams).

(** eth_getStorageAt *)

Definition _getStorageAtParams (params : list JsValue)
  : Result (Tuple [rpcAddress; rpcQuantity; optionalBlockTag]) :=
  validateParams [rpcAddress; rpcQuantity; optionalBlockTag] params.

Definition _getStorageAtAction (address : Buffer) (slot : BN)
  (blockTag : OptionalBlockTag) : Prog string :=
  lift (_validateBlockTag blockTag) ;;
  data <- await (getStorageAt address slot) ;;
  if Nat.eqb (length data) 0 then Ret "0x0"
  else Ret (bufferToRpcData data).

(** eth_getTransactionByBlockHashAndIndex *)

Definition _getTransactionByBlockHashAndIndexParams (params : list JsValue)
  : Result (Tuple [rpcHash; rpcQuantity]) :=
  validateParams [rpcHash; rpcQuantity] params.

Definition _getTransactionByBlockHashAndIndexAction (hash : Buffer) (index : BN)
  : Prog (option RpcTransactionOutput) :=
  i <- lift (BN_toNumber index) ;;
  block <- await (getBlockByHash hash) ;;
  match block with
  | None => Ret None
  | Some block =>
      match at_index (Block_transactions block) i with
      | None => Ret None
      | Some tx => Ret (Some (getRpcTransaction tx (Some block) (Some i)))
      end
  end.

(** eth_getTransactionByBlockNumberAndIndex *)

Definition _getTransactionByBlockNumberAndIndexParams (params : list JsValue)
  : Result (Tuple [rpcQuantity; rpcQuantity]) :=
  validateParams [rpcQuantity; rpcQuantity] params.

Definition _getTransactionByBlockNumberAndIndexAction (blockNumber : BN)
  (index : BN) : Prog (option RpcTransactionOutput) :=
  i <- lift (BN_toNumber index) ;;
  block <- await (getBlockByNumber (Some blockNumber)) ;;
  match block with
  | None => Ret None
  | Some block =>
      match at_index (Block_transactions block) i with
      | None => Ret None
      | Some tx => Ret (Some (getRpcTransaction tx (Some block) (Some i)))
      end
  end.

(** eth_getTransactionByHash *)

Definition _getTransactionByHashParams (params : list JsValue)
  : Result (Tuple [rpcHash]) :=
  validateParams [rpcHash] params.

Definition _getTransactionByHashAction (hash : Buffer)
  : Prog (option RpcTransactionOutput) :=
  tx <- await (getSuccessfulTransactionByHash hash) ;;
  match tx with
  | None => Ret None
  | Some tx =>
      block <- await (getBlockByTransactionHash hash) ;;
      let index :=
        match block with
        | Some b =>
            let i := findIndex (fun bt => Buffer_equals (Transaction_hash bt) hash)
                               (Block_transactions b) in
            if (i =? -1)%Z then None else Some i
        | None => None
        end in
      Ret (Some (getRpcTransaction tx block index))
  end.

(** eth_getTransactionCount *)

Definition _getTransactionCountParams (params : list JsValue)
  : Result (Tuple [rpcAddress; optionalBlockTag]) :=
  validateParams [rpcAddress; optionalBlockTag] params.

Definition _getTransactionCountAction (address : Buffer)
  (blockTag : OptionalBlockTag) : Prog string :=
  lift (_validateBlockTag blockTag) ;;
  nonce <- await (getAccountNonce address) ;;
  Ret (numberToRpcQuantity nonce).

(** eth_getTransactionReceipt.  The block of a successful transaction is
    taken to exist ([!]); reading [transactions] of [undefined] throws. *)

Definition _getTransactionReceiptParams (params : list JsValue)
  : Result (Tuple [rpcHash]) :=
  validateParams [rpcHash] params.

Definition _getTransactionReceiptAction (hash : Buffer)
  : Prog (option RpcTransactionReceiptOutput) :=
  tx <- await (getSuccessfulTransactionByHash hash) ;;
  match tx with
  | None => Ret None
  | Some tx =>
      block <- await (getBlockByTransactionHash hash) ;;
      match block with
      | None => Throw (JsError "Cannot read property 'transactions' of undefined")
      | Some block =>
          let index := findIndex (fun bt => Buffer_equals (Transaction_hash bt) hash)
                                 (Block_transactions block) in
          txBlockResults <- await (getTxBlockResults block) ;;
          Ret (Some (getRpcTransactionReceipt tx block index txBlockResults))
      end
  end.

(** eth_mining *)

Definition _miningParams (params : list JsValue) : Result (Tuple []) :=
  validateParams [] params.

Definition _miningAction : Prog bool := Ret false.

(** eth_newBlockFilter *)

Definition _newBlockFilterParams (params : list JsValue) : Result (Tuple []) :=
  inr tt.

Definition _newBlockFilterAction : Prog string :=
  filterId <- await (newBlockFilter None) ;;
  Ret (numberToRpcQuantity filterId).

(** eth_newFilter *)

Definition _newFilterParams (params : list JsValue)
  : Result (Tuple [rpcFilterRequest]) :=
  validateParams [rpcFilterRequest] params.

Definition _newFilterAction (filter : RpcFilterRequest) : Prog string :=
  filterParams <- _rpcFilterRequestToGetLogsParams filter ;;
  filterId <- await (newFilter filterParams None) ;;
  Ret (numberToRpcQuantity filterId).

(** eth_newPendingTransactionFilter *)

Definition _newPendingTransactionParams (params : list JsValue)
  : Result (Tuple []) :=
  inr tt.

Definition _newPendingTransactionAction : Prog string :=
  filterId <- await (newPendingTransactionFilter None) ;;
  Ret (numberToRpcQuantity filterId).

(** eth_pendingTransactions *)

Definition _pendingTransactionsParams (params : list JsValue)
  : Result (Tuple []) :=
  inr tt.

Definition _pendingTransactionsAction : Prog (list RpcTransactionOutput) :=
  txs <- await getPendingTransactions ;;
  Ret (map (fun tx => getRpcTransaction tx None None) txs).

(** eth_sendRawTransaction *)

Definition _sendRawTransactionParams (params : list JsValue)
  : Result (Tuple [rpcData]) :=
  validateParams [rpcData] params.

Definition _sendRawTransactionAction (rawTx : Buffer) : Prog string :=
  match Transaction_new rawTx with
  | inl message =>
      if String.eqb message "invalid remainder"
      then Throw (InvalidInputError "Invalid transaction")
      else if includes message "EIP155"
      then Throw (InvalidInputError message)
      else Throw (JsError message)
  | inr tx =>
      await (runTransactionInNewBlock tx) ;;
      Ret (bufferToRpcData (Transaction_hash tx))
  end.

(** eth_sendTransaction *)

Definition _sendTransactionParams (params : list JsValue)
  : Result (Tuple [rpcTransactionRequest]) :=
  validateParams [rpcTransactionRequest] params.

Definition _sendTransactionAction (transactionRequest : RpcTransactionRequest)
  : Prog string :=
  txParams <- _rpcTransactionRequestToNodeTransactionParams transactionRequest ;;
  tx <- await (getSignedTransaction txParams) ;;
  await (runTransactionInNewBlock tx) ;;
  Ret (bufferToRpcData (Transaction_hash tx)).

(** eth_sign *)

Definition _signParams (params : list JsValue)
  : Result (Tuple [rpcAddress; rpcData]) :=
  validateParams [rpcAddress; rpcData] params.

Definition _signAction (address : Buffer) (data : Buffer) : Prog string :=
  signature <- await (signPersonalMessage address data) ;;
  Ret (toRpcSig (sig_v signature) (sig_r signature) (sig_s signature)).

(** eth_signTypedData *)

Definition _signTypedDataParams (params : list JsValue)
  : Result (Tuple [rpcAddress; rpcUnknown]) :=
  validateParams [rpcAddress; rpcUnknown] params.

Definition _signTypedDataAction (address : Buffer) (typedData : JsValue)
  : Prog string :=
  await (signTypedData address typedData).

(** eth_subscribe.  [params.pop()] takes the last argument off the list
    before the rest is validated. *)

Definition _subscribeParams (params : list JsValue)
  : Result (RpcSubscribeRequest * OptionalRpcFilterRequest * Callback) :=
  if Nat.eqb (length params) 0
  then inl (InvalidInputError "Notifications not supported")
  else if Nat.eqb (length params) 1
  then inl (InvalidInputError "Expected subscription name as first argument")
  else
    let callback := last params JUndefined in
    let params := removelast params in
    match callback with
    | JFunction callback =>
        match validateParams [rpcSubscribeRequest; optionalRpcFilterRequest] params with
        | inl e => inl e
        | inr (subscribeRequest, (optionalFilterRequest, _)) =>
            inr (subscribeRequest, optionalFilterRequest, callback)
        end
    | _ => inl (InvalidInputError "Notifications not supported")
    end.

Definition _subscribeAction (subscribeRequest : RpcSubscribeRequest)
  (optionalFilterRequest : OptionalRpcFilterRequest) (callback : Callback)
  : Prog string :=
  match subscribeRequest with
  | NewHeads =>
      filterId <- await (newBlockFilter (Some callback)) ;;
      Ret (numberToRpcQuantity filterId)
  | NewPendingTransactions =>
      filterId <- await (newPendingTransactionFilter (Some callback)) ;;
      Ret (numberToRpcQuantity filterId)
  | Logs =>
      match optionalFilterRequest with
      | None => Throw (InvalidArgumentsError "missing params argument")
      | Some filterRequest =>
          filterParams <- _rpcFilterRequestToGetLogsParams filterRequest ;;
          filterId <- await (newFilter filterParams (Some callback)) ;;
          Ret (numberToRpcQuantity filterId)
      end
  end.

(** eth_syncing *)

Definition _syncingParams (params : list JsValue) : Result (Tuple []) :=
  validateParams [] params.

Definition _syncingAction : Prog bool := Ret false.

(** eth_uninstallFilter *)

Definition _uninstallFilterParams (params : list JsValue)
  : Result (Tuple [rpcQuantity]) :=
  validateParams [rpcQuantity] params.

Definition _uninstallFilterAction (filterId : BN) : Prog bool :=
  id <- lift (BN_toNumber filterId) ;;
  await (uninstallFilter id false).

(** eth_unsubscribe *)

Definition _unsubscribeParams (params : list JsValue)
  : Result (Tuple [rpcQuantity]) :=
  validateParams [rpcQuantity] params.

Definition _unsubscribeAction (filterId : BN) : Prog bool :=
  id <- lift (BN_toNumber filterId) ;;
  await (uninstallFilter id true).

(** *** The dispatcher *)

(** What a request resolves to ([Promise<any>]). *)
Inductive RpcResult : Type :=
| ResString (s : string)
| ResBoolean (b : bool)
| ResNull
| ResStrings (l : list string)
| ResBlock (b : RpcBlockOutput)
| ResTransaction (t : RpcTransactionOutput)
| ResTransactions (l : list RpcTransactionOutput)
| ResReceipt (r : RpcTransactionReceiptOutput)
| ResLogs (l : list RpcLogOutput).

Definition orNull {A : Type} (wrap : A -> RpcResult) (o : option A) : RpcResult :=
  match o with
  | Some a => wrap a
  | None => ResNull
  end.

Definition ResChanges (c : FilterChanges) : RpcResult :=
  match c with
  | HashChanges l => ResStrings l
  | LogChanges l => ResLogs l
  end.

(** [this._xAction(...this._xParams(params))]: the parameters are computed
    first, and the action runs on them. *)
Definition invoke {T A : Type} (args : Result T) (action : T -> Prog A)
  (wrap : A -> RpcResult) : Prog RpcResult :=
  match args with
  | inl e => Throw e
  | inr a => mapP wrap (action a)
  end.

Definition notSupported (method : string) : Prog RpcResult :=
  Throw (MethodNotSupportedError ("Method " ++ method ++ " is not supported")).

Definition processRequest (method : string) (params : option (list JsValue))
  : Prog RpcResult :=
  let params := match params with Some l => l | None => [] end in
  if String.eqb method "eth_accounts" then
    invoke (_accountsParams params) (fun _ => _accountsAction) ResStrings
  else if String.eqb method "eth_blockNumber" then
    invoke (_blockNumberParams params) (fun _ => _blockNumberAction) ResString
  else if String.eqb method "eth_call" then
    invoke (_callParams params)
      (fun '(rpcCall, (blockTag, _)) => _callAction rpcCall blockTag) ResString
  else if String.eqb method "eth_chainId" then
    invoke (_chainIdParams params) (fun _ => _chainIdAction) ResString
  else if String.eqb method "eth_coinbase" then
    invoke (_coinbaseParams params) (fun _ => _coinbaseAction) ResString
  else if String.eqb method "eth_compileLLL" then notSupported method
  else if String.eqb method "eth_compileSerpent" then notSupported method
  else if String.eqb method "eth_compileSolidity" then notSupported method
  else if String.eqb method "eth_estimateGas" then
    invoke (_estimateGasParams params)
      (fun '(transactionRequest, (blockTag, _)) =>
         _estimateGasAction transactionRequest blockTag) ResString
  else if String.eqb method "eth_gasPrice" then
    invoke (_gasPriceParams params) (fun _ => _gasPriceAction) ResString
  else if String.eqb method "eth_getBalance" then
    invoke (_getBalanceParams params)
      (fun '(address, (blockTag, _)) => _getBalanceAction address blockTag) ResString
  else if String.eqb method "eth_getBlockByHash" then
    invoke (_getBlockByHashParams params)
      (fun '(hash, (includeTransactions, _)) =>
         _getBlockByHashAction hash includeTransactions) (orNull ResBlock)
  else if String.eqb method "eth_getBlockByNumber" then
    invoke (_getBlockByNumberParams params)
      (fun '(tag, (includeTransactions, _)) =>
         _getBlockByNumberAction tag includeTransactions) (orNull ResBlock)
  else if String.eqb method "eth_getBlockTransactionCountByHash" then
    invoke (_getBlockTransactionCountByHashParams params)
      (fun '(hash, _) => _getBlockTransactionCountByHashAction hash) (orNull ResString)
  else if String.eqb method "eth_getBlockTransactionCountByNumber" then
    invoke (_getBlockTransactionCountByNumberParams params)
      (fun '(blockNumber, _) => _getBlockTransactionCountByNumberAction blockNumber)
      (orNull ResString)
  else if String.eqb method "eth_getCode" then
    invoke (_getCodeParams params)
      (fun '(address, (blockTag, _)) => _getCodeAction address blockTag) ResString
  else if String.eqb method "eth_getCompilers" then notSupported method
  else if String.eqb method "eth_getFilterChanges" then
    invoke (_getFilterChangesParams params)
      (fun '(filterId, _) => _getFilterChangesAction filterId) (orNull ResChanges)
  else if String.eqb method "eth_getFilterLogs" then
    invoke (_getFilterLogsParams params)
      (fun '(filterId, _) => _getFilterLogsAction filterId) (orNull ResLogs)
  else if String.eqb method "eth_getLogs" then
    invoke (_getLogsParams params) (fun '(filter, _) => _getLogsAction filter) ResLogs
  else if String.eqb method "eth_getProof" then notSupported method
  else if String.eqb method "eth_getStorageAt" then
    invoke (_getStorageAtParams params)
      (fun '(address, (slot, (blockTag, _))) =>
         _getStorageAtAction address slot blockTag) ResString
  else if String.eqb method "eth_getTransactionByBlockHashAndIndex" then
    invoke (_getTransactionByBlockHashAndIndexParams params)
      (fun '(hash, (index, _)) => _getTransactionByBlockHashAndIndexAction hash index)
      (orNull ResTransaction)
  else if String.eqb method "eth_getTransactionByBlockNumberAndIndex" then
    invoke (_getTransactionByBlockNumberAndIndexParams params)
      (fun '(blockNumber, (index, _)) =>
         _getTransactionByBlockNumberAndIndexAction blockNumber index)
      (orNull ResTransaction)
  else if String.eqb method "eth_getTransactionByHash" then
    invoke (_getTransactionByHashParams params)
      (fun '(hash, _) => _getTransactionByHashAction hash) (orNull ResTransaction)
  else if String.eqb method "eth_getTransactionCount" then
    invoke (_getTransactionCountParams params)
      (fun '(address, (blockTag, _)) => _getTransactionCountAction address blockTag)
      ResString
  else if String.eqb method "eth_getTransactionReceipt" then
    invoke (_getTransactionReceiptParams params)
      (fun '(hash, _) => _getTransactionReceiptAction hash) (orNull ResReceipt)
  else if String.eqb method "eth_getUncleByBlockHashAndIndex" then notSupported method
  else if String.eqb method "eth_getUncleByBlockNumberAndIndex" then notSupported method
  else if String.eqb method "eth_getUncleCountByBlockHash" then notSupported method
  else if String.eqb method "eth_getUncleCountByBlockNumber" then notSupported method
  else if String.eqb method "eth_getWork" then notSupported method
  else if String.eqb method "eth_hashrate" then notSupported method
  else if String.eqb method "eth_mining" then
    invoke (_miningParams params) (fun _ => _miningAction) ResBoolean
  else if String.eqb method "eth_newBlockFilter" then
    invoke (_newBlockFilterParams params) (fun _ => _newBlockFilterAction) ResString
  else if String.eqb method "eth_newFilter" then
    invoke (_newFilterParams params) (fun '(filter, _) => _newFilterAction filter)
      ResString
  else if String.eqb method "eth_newPendingTransactionFilter" then
    invoke (_newPendingTransactionParams params)
      (fun _ => _newPendingTransactionAction) ResString
  else if String.eqb method "eth_pendingTransactions" then
    invoke (_pendingTransactionsParams params)
      (fun _ => _pendingTransactionsAction) ResTransactions
  else if String.eqb method "eth_protocolVersion" then notSupported method
  else if String.eqb method "eth_sendRawTransaction" then
    invoke (_sendRawTransactionParams params)
      (fun '(rawTx, _) => _sendRawTransactionAction rawTx) ResString
  else if String.eqb method "eth_sendTransaction" then
    invoke (_sendTransactionParams params)
      (fun '(transactionRequest, _) => _sendTransactionAction transactionRequest)
      ResString
  else if String.eqb method "eth_sign" then
    invoke (_signParams params) (fun '(address, (data, _)) => _signAction address data)
      ResString
  else if String.eqb method "eth_signTransaction" then notSupported method
  else if String.eqb method "eth_signTypedData" then
    invoke (_signTypedDataParams params)
      (fun '(address, (typedData, _)) => _signTypedDataAction address typedData)
      ResString
  else if String.eqb method "eth_submitHashrate" then notSupported method
  else if String.eqb method "eth_submitWork" then notSupported method
  else if String.eqb method "eth_subscribe" then
    invoke (_subscribeParams params)
      (fun '(subscribeRequest, optionalFilterRequest, callback) =>
         _subscribeAction subscribeRequest optionalFilterRequest callback) ResString
  else if String.eqb method "eth_syncing" then
    invoke (_syncingParams params) (fun _ => _syncingAction) ResBoolean
  else if String.eqb method "eth_uninstallFilter" then
    invoke (_uninstallFilterParams params)
      (fun '(filterId, _) => _uninstallFilterAction filterId) ResBoolean
  else if String.eqb method "eth_unsubscribe" then
    invoke (_unsubscribeParams params)
      (fun '(filterId, _) => _unsubscribeAction filterId) ResBoolean
  else Throw (MethodNotFoundError ("Method " ++ method ++ " not found")).

End EthModule.

(** ** The method tables of the specification (section 6) *)

Definition supportedMethods : list string :=
  [ "eth_accounts"; "eth_blockNumber"; "eth_chainId"; "eth_coinbase"; "eth_gasPrice";
    "eth_syncing"; "eth_mining";
    "eth_call"; "eth_estimateGas"; "eth_getBalance"; "eth_getCode"; "eth_getStorageAt";
    "eth_getTransactionCount";
    "eth_getBlockByHash"; "eth_getBlockByNumber"; "eth_getBlockTransactionCountByHash";
    "eth_getBlockTransactionCountByNumber";
    "eth_getTransactionByHash"; "eth_getTransactionByBlockHashAndIndex";
    "eth_getTransactionByBlockNumberAndIndex"; "eth_getTransactionReceipt";
    "eth_sendRawTransaction"; "eth_sendTransaction"; "eth_pendingTransactions";
    "eth_sign"; "eth_signTypedData";
    "eth_newFilter"; "eth_newBlockFilter"; "eth_newPendingTransactionFilter";
    "eth_getFilterChanges"; "eth_getFilterLogs"; "eth_uninstallFilter"; "eth_getLogs";
    "eth_subscribe"; "eth_unsubscribe" ].

Definition unsupportedMethods : list string :=
  [ "eth_protocolVersion"; "eth_hashrate"; "eth_getProof";
    "eth_getUncleByBlockHashAndIndex"; "eth_getUncleByBlockNumberAndIndex";
    "eth_getUncleCountByBlockHash"; "eth_getUncleCountByBlockNumber";
    "eth_signTransaction"; "eth_submitWork"; "eth_submitHashrate"; "eth_getWork";
    "eth_compileLLL"; "eth_compileSerpent"; "eth_compileSolidity"; "eth_getCompilers" ].




Definition isInvalidArguments (e : RpcError) : bool :=
  match e with InvalidArgumentsError _ => true | _ => false end.

(** ** A small concrete node

    An instance of the external interfaces and of the node, on which the
    statements below are exercised: transactions are their raw bytes, a block
    is its number, its hash and its transactions, and the node keeps a list of
    accounts, a chain of blocks and a table of filters. *)

Module Demo.

Record DemoBlock : Type := {
  blockNumber : Buffer;
  blockHash : Buffer;
  blockTxs : list Buffer
}.

(** A toy decoder: the first byte of the raw transaction selects the failure
    of the constructor. *)
Definition decodeTx (rawTx : Buffer) : string + Buffer :=
  match rawTx with
  | [] => inl "invalid remainder"
  | x01 :: _ => inl "Incompatible EIP155-based V 38 and chain id 1"
  | x02 :: _ => inl "invalid rlp: total length is larger than the data"
  | _ => inr rawTx
  end.

Definition externals : Externals := {|
  Transaction := Buffer;
  Transaction_new := decodeTx;
  Transaction_hash := fun tx => tx;
  Block := DemoBlock;
  Block_header_number := blockNumber;
  Block_transactions := blockTxs;
  common_chainId := 31337%N;
  toRpcSig := fun _ r s => bufferToHex (r ++ s);
  TxBlockResult := unit;
  RpcBlockOutput := DemoBlock;
  RpcTransactionOutput := Buffer;
  RpcTransactionReceiptOutput := Buffer;
  RpcLogOutput := Buffer;
  getRpcBlock := fun b _ _ => b;
  getRpcTransaction := fun tx _ _ => tx;
  getRpcTransactionReceipt := fun tx _ _ _ => tx
|}.

#[local] Existing Instance externals.

Record NodeState : Type := {
  accounts : list string;
  chain : list DemoBlock;
  mined : list Buffer;
  nextFilterId : N;
  filters : list N;
  blockGasLimit : BN;
  gasPrice : BN
}.

Definition genesis : DemoBlock :=
  {| blockNumber := []; blockHash := [x00]; blockTxs := [] |}.

Definition withFilter (s : NodeState) : NodeState :=
  {| accounts := accounts s; chain := chain s; mined := mined s;
     nextFilterId := N.succ (nextFilterId s);
     filters := nextFilterId s :: filters s;
     blockGasLimit := blockGasLimit s; gasPrice := gasPrice s |}.

Definition withoutFilter (s : NodeState) (id : number) : NodeState :=
  {| accounts := accounts s; chain := chain s; mined := mined s;
     nextFilterId := nextFilterId s;
     filters := filter (fun f => negb (Z.eqb (Z.of_N f) id)) (filters s);
     blockGasLimit := blockGasLimit s; gasPrice := gasPrice s |}.

Definition withTransaction (s : NodeState) (tx : Buffer) : NodeState :=
  {| accounts := accounts s; chain := chain s; mined := tx :: mined s;
     nextFilterId := nextFilterId s; filters := filters s;
     blockGasLimit := blockGasLimit s; gasPrice := gasPrice s |}.

Definition blockByHash (s : NodeState) (h : Buffer) : option DemoBlock :=
  find (fun b => Buffer_equals (blockHash b) h) (chain s).

Definition hasFilter (s : NodeState) (id : number) : bool :=
  existsb (fun f => Z.eqb (Z.of_N f) id) (filters s).

Definition node : Handler NodeState :=
  fun X c =>
    match c in NodeCall X return NodeState -> Result X * NodeState with
    | getLocalAccountAddresses => fun s => (inr (accounts s), s)
    | getLatestBlock => fun s => (inr (last (chain s) genesis), s)
    | runCall p => fun s => (inr (cp_data p), s)
    | getCoinbaseAddress => fun s => (inr [], s)
    | estimateGas _ => fun s => (inr 21000%N, s)
    | getGasPrice => fun s => (inr (gasPrice s), s)
    | getAccountBalance _ => fun s => (inr 0%N, s)
    | getBlockByHash h => fun s => (inr (blockByHash s h), s)
    | getBlockTotalDifficulty _ => fun s => (inr 0%N, s)
    | getBlockByNumber _ => fun s => (inr None, s)
    | getCode _ => fun s => (inr [], s)
    | getFilterChanges _ => fun s => (inr None, s)
    | getFilterLogs _ => fun s => (inr None, s)
    | getLogs _ => fun s => (inr [], s)
    | getStorageAt _ slot => fun s =>
        (inr (if N.eqb slot 0 then [] else [x2a]), s)
    | getSuccessfulTransactionByHash _ => fun s => (inr None, s)
    | getBlockByTransactionHash _ => fun s => (inr None, s)
    | getTxBlockResults _ => fun s => (inr None, s)
    | newBlockFilter _ => fun s => (inr (nextFilterId s), withFilter s)
    | newFilter _ _ => fun s => (inr (nextFilterId s), withFilter s)
    | newPendingTransactionFilter _ => fun s => (inr (nextFilterId s), withFilter s)
    | getPendingTransactions => fun s => (inr [], s)
    | runTransactionInNewBlock tx => fun s => (inr tt, withTransaction s tx)
    | getSignedTransaction p => fun s => (inr (tp_data p), s)
    | signPersonalMessage _ d => fun s =>
        (inr {| sig_v := 27%Z; sig_r := d; sig_s := d |}, s)
    | signTypedData _ _ => fun s => (inr "0x", s)
    | uninstallFilter id _ => fun s => (inr (hasFilter s id), withoutFilter s id)
    | getAccountNonce _ => fun s => (inr 0%N, s)
    | getBlockGasLimit => fun s => (inr (blockGasLimit s), s)
    end.

Definition block7 : DemoBlock :=
  {| blockNumber := [x07]; blockHash := x11 :: x22 :: repeat x00 30;
     blockTxs := [[x03; x04]] |}.

Definition accountA : Buffer := repeat x00 19 ++ [xaa].
Definition accountB : Buffer := repeat x00 19 ++ [xbb].

Definition start : NodeState :=
  {| accounts := ["0x00000000000000000000000000000000000000aa";
                  "0x00000000000000000000000000000000000000bb"];
     chain := [genesis; block7];
     mined := [];
     nextFilterId := 1%N;
     filters := [];
     blockGasLimit := 9500000%N;
     gasPrice := 8000000000%N |}.

(** A block far in the future: its number is 2^53. *)
Definition blockFar : DemoBlock :=
  {| blockNumber := [x20; x00; x00; x00; x00; x00; x00];
     blockHash := x33 :: repeat x00 31;
     blockTxs := [] |}.

(** A node whose chain holds that block. *)
Definition farChain : NodeState :=
  {| accounts := [];
     chain := [genesis; blockFar];
     mined := [];
     nextFilterId := 1%N;
     filters := [];
     blockGasLimit := 9500000%N;
     gasPrice := 8000000000%N |}.

(** A node that has handed out 2^53 - 1 filter ids. *)
Definition manyFilters : NodeState :=
  {| accounts := [];
     chain := [genesis];
     mined := [];
     nextFilterId := 9007199254740992%N;
     filters := [];
     blockGasLimit := 9500000%N;
     gasPrice := 8000000000%N |}.

(** The same node with no local account. *)
Definition noAccounts : NodeState :=
  {| accounts := [];
     chain := [genesis; block7];
     mined := [];
     nextFilterId := 1%N;
     filters := [];
     blockGasLimit := 9500000%N;
     gasPrice := 8000000000%N |}.

End Demo.

(** ** Notions used in the statements *)

Definition headNotZero (s : string) : bool :=
  match s with
  | EmptyString => false
  | String d _ => negb (Ascii.eqb d "0")
  end.

(** Every error that the program itself throws satisfies [P]. *)
Definition AllThrows {ext : Externals} {A : Type} (P : RpcError -> Prop)
  (p : Prog A) : Prop :=
  forall e, Throws p e -> P e.


(** The normal form of one topic slot, in the words of the specification
    (4.3): a single hash becomes a list of one alternative, a list stays that
    list, and [null] stays "any". *)
Definition normalizedSlot (slot : LogTopic) : option (list (option Buffer)) :=
  match slot with
  | TopicHash h => Some [Some h]
  | TopicList l => Some l
  | TopicNull => None
  end.

(** The outcome of a run, and the calls the node received during it. *)
Definition outcome {ext : Externals} {S A : Type} (h : Handler S) (p : Prog A) (s : S)
  : Result A :=
  fst (fst (run h p s)).

Definition calls {ext : Externals} {S A : Type} (h : Handler S) (p : Prog A) (s : S)
  : list Invocation :=
  snd (run h p s).

(** The address of twenty zero bytes. *)
Definition zeroAddressBytes : Buffer := repeat x00 20.

(** The account a call is made from when the request names none, in the words
    of the specification (4.3): the first local account, or the zero address
    when there is none. *)
Definition defaultCallFrom (localAccounts : list Buffer) : Buffer :=
  match localAccounts with
  | [] => zeroAddressBytes
  | first :: _ => first
  end.

Definition orDefault {A : Type} (field : option A) (default : A) : A :=
  match field with
  | Some v => v
  | None => default
  end.

(** The block tags that the state-reading methods accept and reject. *)
Definition acceptedTag (blockTag : OptionalBlockTag) : bool :=
  match blockTag with
  | None | Some Latest | Some Pending => true
  | Some Earliest | Some (BlockNumber _) => false
  end.

(** The calls that the normalisation of a call request makes: one per field
    that the request leaves out and the node supplies. *)
Definition defaultReads {ext : Externals} (rpcCall : RpcCallRequest) : list Invocation :=
  (if isSome (call_from rpcCall) then [] else [invocation getLocalAccountAddresses])
  ++ (if isSome (call_gas rpcCall) then [] else [invocation getBlockGasLimit])
  ++ (if isSome (call_gasPrice rpcCall) then [] else [invocation getGasPrice]).


(** The three requests that carry filter criteria, each as the dispatcher runs
    it, and the call with which each hands the criteria to the node. *)
Inductive FilterMethod : Type :=
| ViaGetLogs
| ViaNewFilter
| ViaSubscribe (callback : Callback).

Definition filterMethod {ext : Externals} (m : FilterMethod) (filter : RpcFilterRequest)
  : Prog RpcResult :=
  match m with
  | ViaGetLogs => mapP ResLogs (_getLogsAction filter)
  | ViaNewFilter => mapP ResString (_newFilterAction filter)
  | ViaSubscribe callback => mapP ResString (_subscribeAction Logs (Some filter) callback)
  end.

Definition filterCall {ext : Externals} (m : FilterMethod) (criteria : FilterParams)
  : Invocation :=
  match m with
  | ViaGetLogs => invocation (getLogs criteria)
  | ViaNewFilter => invocation (newFilter criteria None)
  | ViaSubscribe callback => invocation (newFilter criteria (Some callback))
  end.

(** The number of a block. *)
Definition blockNumberOf {ext : Externals} (block : Block) : BN :=
  BN_ofBuffer (Block_header_number block).

(** The methods whose parameter stage is [validateParams], with the schema
    each one passes to it. *)
Definition validatedMethods : list (string * list Codec) :=
  [ ("eth_accounts", []);
    ("eth_blockNumber", []);
    ("eth_call", [rpcCallRequest; optionalBlockTag]);
    ("eth_chainId", []);
    ("eth_coinbase", []);
    ("eth_estimateGas", [rpcTransactionRequest; optionalBlockTag]);
    ("eth_gasPrice", []);
    ("eth_getBalance", [rpcAddress; optionalBlockTag]);
    ("eth_getBlockByHash", [rpcHash; t_boolean]);
    ("eth_getBlockByNumber", [optionalBlockTag; t_boolean]);
    ("eth_getBlockTransactionCountByHash", [rpcHash]);
    ("eth_getBlockTransactionCountByNumber", [rpcQuantity]);
    ("eth_getCode", [rpcAddress; optionalBlockTag]);
    ("eth_getFilterChanges", [rpcQuantity]);
    ("eth_getFilterLogs", [rpcQuantity]);
    ("eth_getLogs", [rpcFilterRequest]);
    ("eth_getStorageAt", [rpcAddress; rpcQuantity; optionalBlockTag]);
    ("eth_getTransactionByBlockHashAndIndex", [rpcHash; rpcQuantity]);
    ("eth_getTransactionByBlockNumberAndIndex", [rpcQuantity; rpcQuantity]);
    ("eth_getTransactionByHash", [rpcHash]);
    ("eth_getTransactionCount", [rpcAddress; optionalBlockTag]);
    ("eth_getTransactionReceipt", [rpcHash]);
    ("eth_mining", []);
    ("eth_newFilter", [rpcFilterRequest]);
    ("eth_sendRawTransaction", [rpcData]);
    ("eth_sendTransaction", [rpcTransactionRequest]);
    ("eth_sign", [rpcAddress; rpcData]);
    ("eth_signTypedData", [rpcAddress; rpcUnknown]);
    ("eth_syncing", []);
    ("eth_uninstallFilter", [rpcQuantity]);
    ("eth_unsubscribe", [rpcQuantity]) ].

(** The methods whose parameter stage returns the empty tuple without looking
    at the arguments. *)
Definition unvalidatedMethods : list string :=
  [ "eth_newBlockFilter"; "eth_newPendingTransactionFilter"; "eth_pendingTransactions" ].

(** The methods of the module, for unfolding in proofs. *)
Create HintDb eth discriminated.

#[global] Hint Unfold
  _accountsParams _accountsAction _blockNumberParams _blockNumberAction
  _callParams _callAction _chainIdParams _chainIdAction _coinbaseParams
  _coinbaseAction _estimateGasParams _estimateGasAction _gasPriceParams
  _gasPriceAction _getBalanceParams _getBalanceAction _getBlockByHashParams
  _getBlockByHashAction _getBlockByNumberParams _getBlockByNumberAction
  _getBlockTransactionCountByHashParams _getBlockTransactionCountByHashAction
  _getBlockTransactionCountByNumberParams _getBlockTransactionCountByNumberAction
  _getCodeParams _getCodeAction _getFilterChangesParams _getFilterChangesAction
  _getFilterLogsParams _getFilterLogsAction _getLogsParams _getLogsAction
  _getStorageAtParams _getStorageAtAction
  _getTransactionByBlockHashAndIndexParams _getTransactionByBlockHashAndIndexAction
  _getTransactionByBlockNumberAndIndexParams
  _getTransactionByBlockNumberAndIndexAction
  _getTransactionByHashParams _getTransactionByHashAction
  _getTransactionCountParams _getTransactionCountAction
  _getTransactionReceiptParams _getTransactionReceiptAction
  _miningParams _miningAction _newBlockFilterParams _newBlockFilterAction
  _newFilterParams _newFilterAction _newPendingTransactionParams
  _newPendingTransactionAction _pendingTransactionsParams
  _pendingTransactionsAction _sendRawTransactionParams _sendRawTransactionAction
  _sendTransactionParams _sendTransactionAction _signParams _signAction
  _signTypedDataParams _signTypedDataAction _subscribeAction
  _syncingParams _syncingAction _uninstallFilterParams _uninstallFilterAction
  _unsubscribeParams _unsubscribeAction
  _rpcCallRequestToNodeCallParams _rpcTransactionRequestToNodeTransactionParams
  _rpcFilterRequestToGetLogsParams _getDefaultCallFrom : eth.

(** The calls that a program can make, whatever the node answers. *)
Inductive Calls {ext : Externals} {A : Type} : Prog A -> Invocation -> Prop :=
| Calls_here : forall X (c : NodeCall X) k, Calls (Call c k) (invocation c)
| Calls_later : forall X (c : NodeCall X) k x i, Calls (k x) i -> Calls (Call c k) i.

(** Every call that the program can make satisfies [P]. *)
Definition AllCalls {ext : Externals} {A : Type} (P : Invocation -> Prop)
  (p : Prog A) : Prop :=
  forall i, Calls p i -> P i.

(** The call that runs a transaction and mines a block. *)
Definition isRunTransaction {ext : Externals} (i : Invocation) : bool :=
  match projT2 i with
  | runTransactionInNewBlock _ => true
  | _ => false
  end.

(** The calls that install or remove a filter. *)
Definition isFilterUpdate {ext : Externals} (i : Invocation) : bool :=
  match projT2 i with
  | newBlockFilter _ | newFilter _ _ | newPendingTransactionFilter _
  | uninstallFilter _ _ => true
  | _ => false
  end.

(** The methods that submit a transaction, and those that manage filters. *)
Definition sendMethods : list string :=
  [ "eth_sendRawTransaction"; "eth_sendTransaction" ].

Definition filterUpdateMethods : list string :=
  [ "eth_newBlockFilter"; "eth_newFilter"; "eth_newPendingTransactionFilter";
    "eth_subscribe"; "eth_uninstallFilter"; "eth_unsubscribe" ].

(** The calls that the normalisation of a transaction request makes: one per
    field that the request leaves out. *)
Definition txDefaultReads {ext : Externals} (rpcTx : RpcTransactionRequest)
  : list Invocation :=
  (if isSome (tx_gas rpcTx) then [] else [invocation getBlockGasLimit])
  ++ (if isSome (tx_gasPrice rpcTx) then [] else [invocation getGasPrice])
  ++ (if isSome (tx_nonce rpcTx) then []
      else [invocation (getAccountNonce (tx_from rpcTx))]).

(** The first element of the list that satisfies [p] is at index [i]. *)
Definition firstMatchAt {A : Type} (p : A -> bool) (l : list A) (i : number) : Prop :=
  (0 <= i)%Z
  /\ (exists x, at_index l i = Some x /\ p x = true)
  /\ (forall j x, (0 <= j < i)%Z -> at_index l j = Some x -> p x = false).

(** The callback that a call hands to the node, when it hands one. *)
Definition callbackOf {ext : Externals} (i : Invocation) : option Callback :=
  match projT2 i with
  | newBlockFilter callback => callback
  | newFilter _ callback => callback
  | newPendingTransactionFilter callback => callback
  | _ => None
  end.

(** The supported methods that answer by themselves. *)
Definition localMethods : list string :=
  [ "eth_chainId"; "eth_mining"; "eth_syncing" ].



(** * Properties *)

(** ** The wire encodings *)

Section HexFacts.

Lemma of_pos_digits : forall (p : positive) (rest : string),
    Hex.allDigits rest = true ->
    Hex.allDigits (HexString.Raw.of_pos p rest) = true
    /\ headNotZero (HexString.Raw.of_pos p rest) = true.
Proof.
  fix IH 1. intros p rest Hrest.
  do 4 try destruct p as [p|p|]; cbn [HexString.Raw.of_pos];
    try (apply IH; cbn; exact Hrest);
    (split; [cbn; exact Hrest | reflexivity]).
Qed.

Lemma decodeQuantity_numberToRpcQuantity (n : N) :
  decodeQuantity (numberToRpcQuantity n) = Some n.
Proof.
  destruct n as [|p]; [reflexivity|].
  unfold numberToRpcQuantity, HexString.of_N, HexString.of_pos, decodeQuantity.
  cbn [Hex.stripPrefix]. cbn [Ascii.eqb Bool.eqb andb].
  destruct (of_pos_digits p EmptyString eq_refl) as [Hall Hhead].
  pose proof (HexString.Raw.to_N_of_pos p EmptyString 0%N) as Hval.
  change (HexString.Raw.to_N EmptyString (N.pos p)) with (N.pos p) in Hval.
  destruct (HexString.Raw.of_pos p EmptyString) as [|d rest] eqn:E; [discriminate|].
  unfold headNotZero in Hhead.
  rewrite Hall, Hhead, Hval. reflexivity.
Qed.

End HexFacts.

(** ** Programs: what they throw and how they run *)

Section ProgFacts.

Context {ext : Externals}.

Lemma Throws_Call_inv {A X : Type} (c : NodeCall X) (k : X -> Prog A) (e : RpcError) :
  Throws (Call c k) e -> exists x, Throws (k x) e.
Proof.
  intros H.
  refine (match H in Throws p e'
                return match p with
                       | Call c' k' => exists x, Throws (k' x) e'
                       | _ => True
                       end
          with
          | Throws_here _ => I
          | Throws_later c' k' x Hx => ex_intro _ x Hx
          end).
Qed.

Lemma AllThrows_Ret {A : Type} (P : RpcError -> Prop) (a : A) :
  AllThrows P (Ret a).
Proof. intros e H. inversion H. Qed.

Lemma AllThrows_Throw {A : Type} (P : RpcError -> Prop) (e : RpcError) :
  P e -> AllThrows P (Throw (A := A) e).
Proof. intros HP e' H. inversion H; subst. exact HP. Qed.

Lemma AllThrows_Call {A X : Type} (P : RpcError -> Prop) (c : NodeCall X)
  (k : X -> Prog A) :
  (forall x, AllThrows P (k x)) -> AllThrows P (Call c k).
Proof.
  intros Hk e H. destruct (Throws_Call_inv H) as [x Hx]. exact (Hk x e Hx).
Qed.

Lemma AllThrows_bind {A B : Type} (P : RpcError -> Prop) (p : Prog A)
  (f : A -> Prog B) :
  AllThrows P p -> (forall a, AllThrows P (f a)) -> AllThrows P (bind p f).
Proof.
  induction p as [a | e | X c k IH]; intros Hp Hf; cbn [bind].
  - apply Hf.
  - apply AllThrows_Throw. apply Hp. constructor.
  - apply AllThrows_Call. intros x. apply IH; [|exact Hf].
    intros e He. apply Hp. econstructor. exact He.
Qed.

Lemma AllThrows_await {X : Type} (P : RpcError -> Prop) (c : NodeCall X) :
  AllThrows P (await c).
Proof. apply AllThrows_Call. intros x. apply AllThrows_Ret. Qed.


Lemma AllThrows_mapP {A B : Type} (P : RpcError -> Prop) (f : A -> B) (p : Prog A) :
  AllThrows P p -> AllThrows P (mapP f p).
Proof.
  intros H. apply AllThrows_bind; [exact H|]. intros a. apply AllThrows_Ret.
Qed.

(** A program that throws at once leaves the node alone. *)
Lemma run_Throw {S A : Type} (h : Handler S) (e : RpcError) (s : S) :
  run h (Throw (A := A) e) s = (inl e, s, []).
Proof. reflexivity. Qed.

End ProgFacts.

(** ** Parameter validation *)

Section ValidationFacts.



(** More arguments than the schema has positions: rejected. *)
Lemma validateParams_too_many (schema : list Codec) (params : list JsValue) :
  length schema < length params ->
  validateParams schema params = inl (InvalidInputError "Too many arguments").
Proof.
  intros H. unfold validateParams.
  destruct (Nat.ltb_spec (length schema) (length params)); [reflexivity | lia].
Qed.

(** Fewer arguments than the required positions: rejected. *)
Lemma validateParams_too_few (schema : list Codec) (params : list JsValue) :
  length params < requiredParams schema ->
  validateParams schema params = inl (InvalidInputError "Too few arguments").
Proof.
  intros H. unfold validateParams.
  assert (requiredParams schema <= length schema) by (unfold requiredParams; lia).
  destruct (Nat.ltb_spec (length schema) (length params)); [lia|].
  destruct (Nat.ltb_spec (length params) (requiredParams schema)); [reflexivity | lia].
Qed.

End ValidationFacts.

(** ** The dispatcher *)

Section DispatcherFacts.

Context {ext : Externals}.



Lemma BN_toNumber_safe (n : BN) :
  (n < UNSAFE_NUMBER)%N -> BN_toNumber n = inr (Z.of_N n).
Proof.
  intros H. unfold BN_toNumber.
  destruct (N.ltb_spec n UNSAFE_NUMBER) as [Hlt | Hge]; [reflexivity | lia].
Qed.

Lemma BN_toNumber_unsafe (n : BN) :
  (UNSAFE_NUMBER <= n)%N ->
  BN_toNumber n = inl (JsError "Number can only safely store up to 53 bits").
Proof.
  intros H. unfold BN_toNumber.
  destruct (N.ltb_spec n UNSAFE_NUMBER) as [Hlt | Hge]; [lia | reflexivity].
Qed.


Lemma BN_toNumber_value (n : BN) (z : number) :
  BN_toNumber n = inr z -> (n < UNSAFE_NUMBER)%N /\ z = Z.of_N n.
Proof.
  unfold BN_toNumber. destruct (N.ltb_spec n UNSAFE_NUMBER) as [Hlt | Hge]; intros H;
    [|discriminate H]. injection H as <-. split; [assumption | reflexivity].
Qed.









End DispatcherFacts.

Section DispatcherOutcomes.

Context {ext : Externals}.


Lemma unsupported_fails (method : string) (params : option (list JsValue)) :
  In method unsupportedMethods ->
  processRequest method params
  = Throw (MethodNotSupportedError ("Method " ++ method ++ " is not supported")).
Proof.
  intros Hu. cbn [In unsupportedMethods] in Hu.
  repeat (destruct Hu as [<- | Hu]); [.. | contradiction]; reflexivity.
Qed.

Lemma unknown_fails (method : string) (params : option (list JsValue)) :
  ~ In method supportedMethods -> ~ In method unsupportedMethods ->
  processRequest method params
  = Throw (MethodNotFoundError ("Method " ++ method ++ " not found")).
Proof.
  intros Hs Hu. unfold processRequest.
  repeat match goal with
         | |- context [String.eqb method ?name] =>
             destruct (String.eqb_spec method name) as [-> | _];
             [ exfalso;
               first [ solve [ apply Hs; cbn [In supportedMethods];
                               repeat first [left; reflexivity | right] ]
                     | solve [ apply Hu; cbn [In unsupportedMethods];
                               repeat first [left; reflexivity | right] ] ]
             | ]
         end.
  reflexivity.
Qed.


Lemma validated_supported (method : string) (schema : list Codec) :
  In (method, schema) validatedMethods -> In method supportedMethods.
Proof.
  intros Hin. cbn [In validatedMethods] in Hin.
  repeat (destruct Hin as [Hin | Hin];
          [ injection Hin as <- <-; cbn [In supportedMethods];
            repeat first [left; reflexivity | right]
          | ]).
  contradiction.
Qed.













End DispatcherOutcomes.




(** ** Block references, topics and addresses of a filter *)

Section FilterFacts.

Context {ext : Externals}.

Lemma push_slots (slots : list LogTopic) (acc : list (option (list (option Buffer)))) :
  fold_left
    (fun topics logTopic =>
       match logTopic with
       | TopicHash h => topics ++ [Some [Some h]]
       | TopicList l => topics ++ [Some l]
       | TopicNull => topics ++ [None]
       end)
    slots acc
  = acc ++ map normalizedSlot slots.
Proof.
  revert acc. induction slots as [|slot rest IH]; intros acc; cbn [fold_left map].
  - symmetry. apply app_nil_r.
  - rewrite IH. destruct slot; cbn [normalizedSlot];
      rewrite <- app_assoc; reflexivity.
Qed.

Lemma extractLogTopics_map (slots : list LogTopic) :
  _extractLogTopics (Some slots) = map normalizedSlot slots.
Proof.
  destruct slots as [|slot rest]; [reflexivity|].
  unfold _extractLogTopics. apply (push_slots (slot :: rest) []).
Qed.

(** A request without [blockHash] is normalised without the node: its range
    is what [_extractBlock] makes of each end. *)
Lemma filter_without_blockHash (filter : RpcFilterRequest) :
  filter_blockHash filter = None ->
  _rpcFilterRequestToGetLogsParams filter
  = match _extractBlock (filter_fromBlock filter),
          _extractBlock (filter_toBlock filter) with
    | inl e, _ => Throw e
    | inr _, inl e => Throw e
    | inr fromBlock, inr toBlock =>
        Ret {| fp_fromBlock := fromBlock;
               fp_toBlock := toBlock;
               fp_topics := _extractLogTopics (filter_topics filter);
               fp_addresses := _extractLogAddresses (filter_address filter) |}
    end.
Proof.
  intros H. unfold _rpcFilterRequestToGetLogsParams. rewrite H. cbn [bind].
  destruct (_extractBlock (filter_fromBlock filter)); [reflexivity|].
  destruct (_extractBlock (filter_toBlock filter)); reflexivity.
Qed.

(** C7, as amended. The ends of a filter range are resolved by
    [_extractBlock]: "earliest" is block 0; an absent tag and "latest" are
    both the sentinel for the head of the chain, which is the number of no
    block; "pending" fails with InvalidArguments; a block number below 2^53
    is that same number, and from 2^53 on the conversion of the number
    throws.  For a request without [blockHash], [fromBlock] and [toBlock] of
    the criteria are these resolutions of the two tags. *)
Theorem extractBlock_resolution :
  _extractBlock (Some Earliest) = inr 0%Z
  /\ _extractBlock None = inr LATEST_BLOCK
  /\ _extractBlock (Some Latest) = inr LATEST_BLOCK
  /\ (forall n : BN, Z.of_N n <> LATEST_BLOCK)
  /\ _extractBlock (Some Pending) = inl (InvalidArgumentsError "pending not supported")
  /\ (forall n : BN, (n < UNSAFE_NUMBER)%N ->
                     _extractBlock (Some (BlockNumber n)) = inr (Z.of_N n))
  /\ (forall n : BN, (UNSAFE_NUMBER <= n)%N ->
                     _extractBlock (Some (BlockNumber n))
                     = inl (JsError "Number can only safely store up to 53 bits"))
  /\ (forall (filter : RpcFilterRequest) (fromBlock toBlock : number),
         filter_blockHash filter = None ->
         _extractBlock (filter_fromBlock filter) = inr fromBlock ->
         _extractBlock (filter_toBlock filter) = inr toBlock ->
         exists criteria,
           _rpcFilterRequestToGetLogsParams filter = Ret criteria
           /\ fp_fromBlock criteria = fromBlock
           /\ fp_toBlock criteria = toBlock)
  /\ (forall filter : RpcFilterRequest,
         filter_blockHash filter = None ->
         filter_fromBlock filter = Some Pending
         \/ (filter_toBlock filter = Some Pending
             /\ exists fromBlock, _extractBlock (filter_fromBlock filter) = inr fromBlock) ->
         _rpcFilterRequestToGetLogsParams filter
         = Throw (InvalidArgumentsError "pending not supported")).
Proof.
  split; [reflexivity|]. split; [reflexivity|]. split; [reflexivity|].
  split; [intros n; unfold LATEST_BLOCK; lia|]. split; [reflexivity|].
  split; [intros n Hn; exact (BN_toNumber_safe Hn)|].
  split; [intros n Hn; exact (BN_toNumber_unsafe Hn)|].
  split.
  - intros filter fromBlock toBlock Hhash Hfrom Hto.
    rewrite (filter_without_blockHash _ Hhash), Hfrom, Hto.
    eexists. repeat split.
  - intros filter Hhash Hpending.
    rewrite (filter_without_blockHash _ Hhash).
    destruct Hpending as [H | [H [fromBlock Hfrom]]].
    + rewrite H. reflexivity.
    + rewrite Hfrom, H. reflexivity.
Qed.

(** C8. An absent address is the empty list, a single address a list of one,
    and a list of addresses is passed on as it is.  Absent or empty topics
    are the empty list; otherwise every slot is normalised in place (a bare
    hash to a list of one alternative, a list to itself, [null] to "any"),
    so the result has as many slots as the request, in the same order. *)
Theorem extractLogTopics_extractLogAddresses :
  _extractLogAddresses None = []
  /\ (forall a, _extractLogAddresses (Some (OneAddress a)) = [a])
  /\ (forall l, _extractLogAddresses (Some (ManyAddresses l)) = l)
  /\ _extractLogTopics None = []
  /\ _extractLogTopics (Some []) = []
  /\ (forall slots, _extractLogTopics (Some slots) = map normalizedSlot slots)
  /\ (forall slots, length (_extractLogTopics (Some slots)) = length slots)
  /\ (forall slots i,
         nth_error (_extractLogTopics (Some slots)) i
         = option_map normalizedSlot (nth_error slots i))
  /\ (forall h, normalizedSlot (TopicHash h) = Some [Some h])
  /\ (forall l, normalizedSlot (TopicList l) = Some l)
  /\ normalizedSlot TopicNull = None.
Proof.
  repeat split; try reflexivity.
  - apply extractLogTopics_map.
  - intros slots. rewrite extractLogTopics_map. apply length_map.
  - intros slots i. rewrite extractLogTopics_map. apply nth_error_map.
Qed.

End FilterFacts.

Lemma extractBlock_resolution_witness :
  exists criteria,
    _rpcFilterRequestToGetLogsParams (ext := Demo.externals)
      {| filter_fromBlock := Some Earliest; filter_toBlock := Some (BlockNumber 12%N);
         filter_address := None; filter_topics := None; filter_blockHash := None |}
    = Ret criteria
    /\ fp_fromBlock criteria = 0%Z /\ fp_toBlock criteria = 12%Z.
Proof.
  apply (proj1 (proj2 (proj2 (proj2 (proj2 (proj2 (proj2 (proj2
           (extractBlock_resolution (ext := Demo.externals)))))))))); reflexivity.
Defined.

(** Without the bound the resolution fails at the block number 2^53, which a
    request can carry as ["0x20000000000000"]. *)
Lemma extractBlock_resolution_counterexample :
  _extractBlock (Some (BlockNumber 9007199254740992%N))
  = inl (JsError "Number can only safely store up to 53 bits")
  /\ _extractBlock (Some (BlockNumber 9007199254740992%N)) <> inr 9007199254740992%Z
  /\ run Demo.node
       (processRequest (ext := Demo.externals) "eth_getLogs"
          (Some [JObject [("fromBlock", JString "0x20000000000000")]]))
       Demo.start
     = (inl (JsError "Number can only safely store up to 53 bits"), Demo.start, []).
Proof.
  split; [reflexivity|]. split; [discriminate | reflexivity].
Qed.

(** ** Running programs *)

Section RunFacts.

Context {ext : Externals} {S : Type} (h : Handler S).

Lemma run_bind {A B : Type} (p : Prog A) (f : A -> Prog B) (s : S) :
  run h (bind p f) s
  = match run h p s with
    | (inl e, s', cs) => (inl e, s', cs)
    | (inr a, s', cs) =>
        match run h (f a) s' with
        | (r, s'', cs') => (r, s'', cs ++ cs')
        end
    end.
Proof.
  revert s. induction p as [a | e | X c k IH]; intros s; cbn [bind run].
  - destruct (run h (f a) s) as [[r s'] cs]. reflexivity.
  - reflexivity.
  - destruct (@h X c s) as [[e | x] s']; [reflexivity|].
    rewrite IH. destruct (run h (k x) s') as [[[e | a] s''] cs]; [reflexivity|].
    destruct (run h (f a) s'') as [[r s3] cs']. reflexivity.
Qed.

Lemma run_await_ok {X : Type} (c : NodeCall X) (s s' : S) (x : X) :
  @h X c s = (inr x, s') -> run h (await c) s = (inr x, s', [invocation c]).
Proof. intros H. cbn [await run]. rewrite H. reflexivity. Qed.

Lemma run_await_error {X : Type} (c : NodeCall X) (s s' : S) (e : RpcError) :
  @h X c s = (inl e, s') -> run h (await c) s = (inl e, s', [invocation c]).
Proof. intros H. cbn [await run]. rewrite H. reflexivity. Qed.

Lemma run_mapP {A B : Type} (f : A -> B) (p : Prog A) (s : S) :
  run h (mapP f p) s
  = match run h p s with
    | (inl e, s', cs) => (inl e, s', cs)
    | (inr a, s', cs) => (inr (f a), s', cs)
    end.
Proof.
  unfold mapP. rewrite run_bind.
  destruct (run h p s) as [[[e | a] s'] cs]; [reflexivity|].
  cbn [run]. rewrite app_nil_r. reflexivity.
Qed.

(** The first call of a program is logged whatever the node answers. *)
Lemma calls_Call {A X : Type} (c : NodeCall X) (k : X -> Prog A) (s : S) :
  exists rest, calls h (Call c k) s = invocation c :: rest.
Proof.
  unfold calls. cbn [run]. destruct (@h X c s) as [[e | x] s'].
  - exists []. reflexivity.
  - destruct (run h (k x) s') as [[r s''] cs]. exists cs. reflexivity.
Qed.

End RunFacts.

(** ** Bytes and their hexadecimal form *)

Section DataFacts.

Lemma byte_digits (x : byte) (rest : option Buffer) :
  match HexString.ascii_to_digit (Hex.digit (Byte.to_N x / 16)),
        HexString.ascii_to_digit (Hex.digit (Byte.to_N x mod 16)),
        rest with
  | Some hi, Some lo, Some bs =>
      match Byte.of_N (16 * hi + lo) with
      | Some y => Some (y :: bs)
      | None => None
      end
  | _, _, _ => None
  end
  = option_map (cons x) rest.
Proof. destruct rest; destruct x; reflexivity. Qed.

Lemma toBytes_ofBytes (b : Buffer) : Hex.toBytes (Hex.ofBytes b) = Some b.
Proof.
  induction b as [|x rest IH]; [reflexivity|].
  cbn [Hex.ofBytes Hex.toBytes]. rewrite byte_digits, IH. reflexivity.
Qed.

Lemma length_ofBytes (b : Buffer) : String.length (Hex.ofBytes b) = 2 * length b.
Proof.
  induction b as [|x rest IH]; [reflexivity|].
  cbn [Hex.ofBytes String.length length]. rewrite IH. lia.
Qed.

Lemma decodeData_bufferToRpcData (b : Buffer) :
  decodeData (bufferToRpcData b) = Some b.
Proof. unfold decodeData, bufferToRpcData. cbn. apply toBytes_ofBytes. Qed.

Lemma toBuffer_bufferToHex (b : Buffer) : toBuffer (bufferToHex b) = inr b.
Proof.
  unfold toBuffer, bufferToHex. cbn [append Hex.stripPrefix Ascii.eqb Bool.eqb andb].
  unfold padToEven. rewrite length_ofBytes.
  replace (Nat.even (2 * length b)) with true.
  - rewrite toBytes_ofBytes. reflexivity.
  - symmetry. apply Nat.even_spec. exists (length b). reflexivity.
Qed.

Lemma toBuffer_zeroAddress : toBuffer zeroAddress = inr zeroAddressBytes.
Proof. reflexivity. Qed.

(** The encoding of data has an even number of digits: it is never ["0x0"]. *)
Lemma bufferToRpcData_not_0x0 (b : Buffer) : bufferToRpcData b <> "0x0".
Proof.
  intros H. apply (f_equal String.length) in H.
  unfold bufferToRpcData in H. cbn in H. rewrite length_ofBytes in H. lia.
Qed.

End DataFacts.

(** ** Default values of a call request *)

Section CallDefaults.

Context {ext : Externals} {S : Type} (h : Handler S).

Lemma run_getDefaultCallFrom (s : S) (localAccounts : list Buffer) :
  @h _ getLocalAccountAddresses s = (inr (map bufferToHex localAccounts), s) ->
  run h _getDefaultCallFrom s
  = (inr (defaultCallFrom localAccounts), s, [invocation getLocalAccountAddresses]).
Proof.
  intros Haccounts. unfold _getDefaultCallFrom.
  rewrite run_bind, (run_await_ok h Haccounts).
  destruct localAccounts as [|first rest]; cbn [map defaultCallFrom].
  - rewrite toBuffer_zeroAddress. reflexivity.
  - rewrite toBuffer_bufferToHex. reflexivity.
Qed.

(** C6. The normalisation of an [eth_call] request, against a node that
    reports its local accounts, its block gas limit and its gas price: a field
    that is present is passed on unchanged and costs no node call; an omitted
    [to] and [data] become the empty byte sequence, an omitted [value] 0, an
    omitted [gas] the block gas limit of the node, an omitted [gasPrice] its
    gas price, and an omitted [from] the first local account or, with no local
    account, the zero address.  These are the parameters that [eth_call] runs
    the call with. *)
Theorem rpcCallRequestToNodeCallParams_defaults (s : S) (rpcCall : RpcCallRequest)
  (localAccounts : list Buffer) (gasLimit gasPrice : BN) :
  @h _ getLocalAccountAddresses s = (inr (map bufferToHex localAccounts), s) ->
  @h _ getBlockGasLimit s = (inr gasLimit, s) ->
  @h _ getGasPrice s = (inr gasPrice, s) ->
  let callParams :=
    {| cp_to := orDefault (call_to rpcCall) [];
       cp_from := orDefault (call_from rpcCall) (defaultCallFrom localAccounts);
       cp_data := orDefault (call_data rpcCall) [];
       cp_gasLimit := orDefault (call_gas rpcCall) gasLimit;
       cp_gasPrice := orDefault (call_gasPrice rpcCall) gasPrice;
       cp_value := orDefault (call_value rpcCall) 0%N |} in
  run h (_rpcCallRequestToNodeCallParams rpcCall) s
  = (inr callParams, s, defaultReads rpcCall)
  /\ (forall blockTag, acceptedTag blockTag = true ->
        calls h (_callAction rpcCall blockTag) s
        = defaultReads rpcCall ++ [invocation (runCall callParams)]).
Proof.
  intros Haccounts Hlimit Hprice callParams.
  assert (Hnorm : run h (_rpcCallRequestToNodeCallParams rpcCall) s
                  = (inr callParams, s, defaultReads rpcCall)).
  { subst callParams. unfold _rpcCallRequestToNodeCallParams, defaultReads.
    destruct rpcCall as [from to gas price value data]; cbn [call_from call_to call_gas
      call_gasPrice call_value call_data orDefault isSome].
    rewrite run_bind.
    destruct from as [from|];
      [cbn [run] | rewrite (run_getDefaultCallFrom _ Haccounts)];
      (rewrite run_bind;
       destruct gas as [gas|];
       [cbn [run] | rewrite (run_await_ok h Hlimit)];
       (rewrite run_bind;
        destruct price as [price|];
        [cbn [run] | rewrite (run_await_ok h Hprice)];
        reflexivity)). }
  split; [exact Hnorm|].
  intros blockTag Htag. unfold calls, _callAction.
  replace (_validateBlockTag blockTag) with (inr tt : Result unit)
    by (destruct blockTag as [[n| | |]|]; try discriminate Htag; reflexivity).
  cbn [lift bind]. rewrite run_bind, Hnorm.
  cbn [bind await run].
  destruct (@h _ (runCall callParams) s) as [[e | returnData] s']; reflexivity.
Qed.

End CallDefaults.

Lemma rpcCallRequestToNodeCallParams_defaults_witness :
  let rpcCall :=
    {| call_from := None; call_to := Some Demo.accountB; call_gas := None;
       call_gasPrice := None; call_value := None; call_data := Some [x12; x34] |} in
  let callParams :=
    {| cp_to := Demo.accountB; cp_from := Demo.accountA; cp_data := [x12; x34];
       cp_gasLimit := 9500000%N; cp_gasPrice := 8000000000%N; cp_value := 0%N |} in
  run Demo.node (_rpcCallRequestToNodeCallParams (ext := Demo.externals) rpcCall) Demo.start
  = (inr callParams, Demo.start, defaultReads rpcCall)
  /\ (forall blockTag, acceptedTag blockTag = true ->
        calls Demo.node (_callAction rpcCall blockTag) Demo.start
        = defaultReads rpcCall ++ [invocation (runCall callParams)]).
Proof.
  intros rpcCall callParams.
  apply (@rpcCallRequestToNodeCallParams_defaults Demo.externals _ Demo.node
           Demo.start rpcCall [Demo.accountA; Demo.accountB] 9500000%N 8000000000%N);
    reflexivity.
Defined.

Lemma rpcCallRequestToNodeCallParams_no_account :
  run Demo.node
    (_rpcCallRequestToNodeCallParams (ext := Demo.externals)
       {| call_from := None; call_to := None; call_gas := Some 21000%N;
          call_gasPrice := None; call_value := None; call_data := None |})
    Demo.noAccounts
  = (inr {| cp_to := []; cp_from := zeroAddressBytes; cp_data := [];
            cp_gasLimit := 21000%N; cp_gasPrice := 8000000000%N; cp_value := 0%N |},
     Demo.noAccounts,
     [invocation getLocalAccountAddresses; invocation getGasPrice]).
Proof. reflexivity. Qed.

(** ** The block tag of the state-reading methods *)

Section BlockTagFacts.

Context {ext : Externals}.

Lemma acceptedTag_validate (blockTag : OptionalBlockTag) :
  _validateBlockTag blockTag
  = if acceptedTag blockTag then inr tt
    else inl (InvalidInputError "Only latest and pending block params are supported").
Proof. destruct blockTag as [[n| | |]|]; reflexivity. Qed.




End BlockTagFacts.

(** The policy on the demo node, through the dispatcher: "earliest" and a
    block number are rejected before the node is reached; no tag, "latest"
    and "pending" read the same balance. *)
Lemma getBalance_blockTag_examples :
  let address := JString "0x00000000000000000000000000000000000000aa" in
  let request := fun tag =>
    run Demo.node
      (processRequest (ext := Demo.externals) "eth_getBalance" (Some (address :: tag)))
      Demo.start in
  let rejected :=
    (inl (InvalidInputError "Only latest and pending block params are supported"),
     Demo.start, []) in
  request [JString "earliest"] = rejected
  /\ request [JString "0x5"] = rejected
  /\ request [] = (inr (ResString "0x0"), Demo.start,
                   [invocation (getAccountBalance Demo.accountA)])
  /\ request [JString "latest"] = request []
  /\ request [JString "pending"] = request [].
Proof. repeat split; reflexivity. Qed.

(** ** Raw transactions *)

Section RawTransactionFacts.

Context {ext : Externals}.

Lemma processRequest_sendRawTransaction (rawTx : Buffer) :
  processRequest "eth_sendRawTransaction" (Some [JString (bufferToRpcData rawTx)])
  = mapP ResString (_sendRawTransactionAction rawTx).
Proof.
  pose proof (decodeData_bufferToRpcData rawTx) as Hdecode.
  generalize dependent (bufferToRpcData rawTx). intros wire Hdecode.
  cbv beta iota zeta delta [processRequest String.eqb Ascii.eqb Bool.eqb].
  unfold _sendRawTransactionParams, validateParams.
  cbn [length Nat.ltb Nat.leb requiredParams optionalTail tailOptional andb Nat.sub
       decodeParams hd tl decode Decoders.data].
  rewrite Hdecode. reflexivity.
Qed.

(** C4. When the constructor of the transaction fails on the raw bytes of
    [eth_sendRawTransaction]: with the message "invalid remainder" the method
    throws InvalidInput "Invalid transaction"; with a message that mentions
    "EIP155" it throws InvalidInput with that message; with any other message
    the error of the constructor goes on unchanged.  In each case the method
    throws before it reaches the node: run against any node, from any state,
    it makes no call ([runTransactionInNewBlock] is not invoked) and leaves
    the state as it was, also when it is reached through the dispatcher. *)
Theorem sendRawTransaction_decode_failure (rawTx : Buffer) (message : string) :
  Transaction_new rawTx = inl message ->
  (message = "invalid remainder" ->
   _sendRawTransactionAction rawTx = Throw (InvalidInputError "Invalid transaction"))
  /\ (includes message "EIP155" = true ->
      _sendRawTransactionAction rawTx = Throw (InvalidInputError message))
  /\ (message <> "invalid remainder" -> includes message "EIP155" = false ->
      _sendRawTransactionAction rawTx = Throw (JsError message))
  /\ exists e,
      _sendRawTransactionAction rawTx = Throw e
      /\ forall (S : Type) (h : Handler S) (s : S),
          run h (_sendRawTransactionAction rawTx) s = (inl e, s, [])
          /\ run h (processRequest "eth_sendRawTransaction"
                      (Some [JString (bufferToRpcData rawTx)])) s
             = (inl e, s, []).
Proof.
  intros Hnew. unfold _sendRawTransactionAction. rewrite Hnew.
  assert (Hthrow : exists e,
             (if String.eqb message "invalid remainder"
              then Throw (InvalidInputError "Invalid transaction")
              else if includes message "EIP155"
                   then Throw (InvalidInputError message)
                   else Throw (JsError message)) = Throw (A := string) e).
  { destruct (String.eqb message "invalid remainder"); [eexists; reflexivity|].
    destruct (includes message "EIP155"); eexists; reflexivity. }
  split; [| split; [| split]].
  - intros ->. reflexivity.
  - intros Hincl.
    destruct (String.eqb_spec message "invalid remainder") as [-> | _].
    + discriminate Hincl.
    + rewrite Hincl. reflexivity.
  - intros Hne Hincl.
    destruct (String.eqb_spec message "invalid remainder") as [-> | _];
      [contradiction|].
    rewrite Hincl. reflexivity.
  - destruct Hthrow as [e He]. exists e. split; [exact He|].
    intros S h s. split.
    + rewrite He. reflexivity.
    + rewrite processRequest_sendRawTransaction.
      unfold _sendRawTransactionAction. rewrite Hnew, He. reflexivity.
Qed.

End RawTransactionFacts.

Lemma sendRawTransaction_decode_failure_witness :
  _sendRawTransactionAction (ext := Demo.externals) []
  = Throw (InvalidInputError "Invalid transaction")
  /\ _sendRawTransactionAction (ext := Demo.externals) [x01; x02]
     = Throw (InvalidInputError "Incompatible EIP155-based V 38 and chain id 1")
  /\ _sendRawTransactionAction (ext := Demo.externals) [x02]
     = Throw (JsError "invalid rlp: total length is larger than the data")
  /\ run Demo.node
       (processRequest (ext := Demo.externals) "eth_sendRawTransaction"
          (Some [JString "0x0102"])) Demo.start
     = (inl (InvalidInputError "Incompatible EIP155-based V 38 and chain id 1"),
        Demo.start, []).
Proof.
  split; [| split; [| split]].
  - apply (proj1 (sendRawTransaction_decode_failure (ext := Demo.externals)
                    [] eq_refl)).
    reflexivity.
  - apply (proj1 (proj2 (sendRawTransaction_decode_failure (ext := Demo.externals)
                           [x01; x02] eq_refl))).
    reflexivity.
  - apply (proj1 (proj2 (proj2 (sendRawTransaction_decode_failure
                                  (ext := Demo.externals) [x02] eq_refl)))).
    + discriminate.
    + reflexivity.
  - reflexivity.
Defined.

(** ** Storage *)

Section StorageFacts.

Context {ext : Externals} {S : Type} (h : Handler S).

(** C10. An [eth_getStorageAt] request whose block tag is accepted asks the
    node for the slot once.  When the node reports a value of length zero the
    method returns ["0x0"], the encoding of the quantity 0 and not an encoding
    of data (it has an odd number of digits); otherwise it returns the bytes
    in the data encoding, an even number of digits after [0x].  The data
    encoding of the empty value would be ["0x"]: the two cases are not encoded
    alike. *)
Theorem getStorageAt_encoding (s s' : S) (address : Buffer) (slot : BN)
  (blockTag : OptionalBlockTag) (data : Buffer) :
  acceptedTag blockTag = true ->
  @h _ (getStorageAt address slot) s = (inr data, s') ->
  (length data = 0 ->
   run h (_getStorageAtAction address slot blockTag) s
   = (inr "0x0", s', [invocation (getStorageAt address slot)]))
  /\ (length data <> 0 ->
      run h (_getStorageAtAction address slot blockTag) s
      = (inr (bufferToRpcData data), s', [invocation (getStorageAt address slot)])
      /\ bufferToRpcData data <> "0x0"
      /\ decodeData (bufferToRpcData data) = Some data
      /\ String.length (bufferToRpcData data) = 2 + 2 * length data)
  /\ numberToRpcQuantity 0 = "0x0"
  /\ decodeData "0x0" = None
  /\ bufferToRpcData [] = "0x".
Proof.
  intros Htag Hnode.
  assert (Hrun : run h (_getStorageAtAction address slot blockTag) s
                 = (inr (if Nat.eqb (length data) 0 then "0x0" else bufferToRpcData data),
                    s', [invocation (getStorageAt address slot)])).
  { unfold _getStorageAtAction. rewrite acceptedTag_validate, Htag.
    cbn [lift bind await run]. rewrite Hnode.
    destruct (Nat.eqb (length data) 0); reflexivity. }
  split; [| split; [| repeat split]].
  - intros Hlen. rewrite Hrun, Hlen. reflexivity.
  - intros Hlen. split; [| split; [| split]].
    + rewrite Hrun. destruct (Nat.eqb_spec (length data) 0); [contradiction | reflexivity].
    + apply bufferToRpcData_not_0x0.
    + apply decodeData_bufferToRpcData.
    + unfold bufferToRpcData. cbn [append String.length].
      rewrite length_ofBytes. reflexivity.
Qed.

End StorageFacts.

Lemma getStorageAt_encoding_witness :
  run Demo.node (_getStorageAtAction (ext := Demo.externals) Demo.accountA 0%N (Some Latest))
    Demo.start
  = (inr "0x0", Demo.start, [invocation (getStorageAt Demo.accountA 0%N)])
  /\ run Demo.node (_getStorageAtAction (ext := Demo.externals) Demo.accountA 1%N None)
       Demo.start
     = (inr "0x2a", Demo.start, [invocation (getStorageAt Demo.accountA 1%N)]).
Proof.
  split.
  - apply (proj1 (@getStorageAt_encoding Demo.externals _ Demo.node Demo.start
                    Demo.start Demo.accountA 0%N (Some Latest) [] eq_refl eq_refl)).
    reflexivity.
  - apply (proj1 (proj1 (proj2 (@getStorageAt_encoding Demo.externals _ Demo.node
                    Demo.start Demo.start Demo.accountA 1%N None [x2a] eq_refl eq_refl))
                    ltac:(discriminate))).
Defined.

(** ** Filter requests by block hash *)

Section BlockHashFacts.

Context {ext : Externals} {S : Type} (h : Handler S).

Lemma run_filter_exclusive (filter : RpcFilterRequest) (hash : Buffer) (s : S) :
  filter_blockHash filter = Some hash ->
  filter_fromBlock filter <> None \/ filter_toBlock filter <> None ->
  run h (_rpcFilterRequestToGetLogsParams filter) s
  = (inl (InvalidArgumentsError "blockHash is mutually exclusive with fromBlock/toBlock"),
     s, []).
Proof.
  intros Hhash Hrange. unfold _rpcFilterRequestToGetLogsParams. rewrite Hhash.
  replace (isSome (filter_fromBlock filter) || isSome (filter_toBlock filter))%bool
    with true; [reflexivity|].
  destruct (filter_fromBlock filter), (filter_toBlock filter); try reflexivity.
  destruct Hrange as [H | H]; contradiction H; reflexivity.
Qed.

Lemma run_filter_unknown_hash (filter : RpcFilterRequest) (hash : Buffer) (s s' : S) :
  filter_blockHash filter = Some hash ->
  filter_fromBlock filter = None -> filter_toBlock filter = None ->
  @h _ (getBlockByHash hash) s = (inr None, s') ->
  run h (_rpcFilterRequestToGetLogsParams filter) s
  = (inl (InvalidArgumentsError "blockHash cannot be found"), s',
     [invocation (getBlockByHash hash)]).
Proof.
  intros Hhash Hfrom Hto Hnode. unfold _rpcFilterRequestToGetLogsParams.
  rewrite Hhash, Hfrom, Hto. cbn [isSome orb bind await run]. rewrite Hnode.
  reflexivity.
Qed.

Lemma run_filter_known_hash (filter : RpcFilterRequest) (hash : Buffer) (s s' : S)
  (block : Block) :
  filter_blockHash filter = Some hash ->
  filter_fromBlock filter = None -> filter_toBlock filter = None ->
  @h _ (getBlockByHash hash) s = (inr (Some block), s') ->
  (blockNumberOf block < UNSAFE_NUMBER)%N ->
  run h (_rpcFilterRequestToGetLogsParams filter) s
  = (inr {| fp_fromBlock := Z.of_N (blockNumberOf block);
            fp_toBlock := Z.of_N (blockNumberOf block);
            fp_topics := _extractLogTopics (filter_topics filter);
            fp_addresses := _extractLogAddresses (filter_address filter) |},
     s', [invocation (getBlockByHash hash)]).
Proof.
  intros Hhash Hfrom Hto Hnode Hsafe. unfold _rpcFilterRequestToGetLogsParams.
  rewrite Hhash, Hfrom, Hto. cbn [isSome orb bind await run]. rewrite Hnode.
  cbn [bind setBlockRange filter_fromBlock filter_toBlock filter_topics
       filter_address _extractBlock].
  unfold blockNumberOf in *. rewrite (BN_toNumber_safe Hsafe). reflexivity.
Qed.

(** A block whose number does not fit a JavaScript number: the conversion
    throws once the node has answered. *)
Lemma run_filter_unsafe_number (filter : RpcFilterRequest) (hash : Buffer) (s s' : S)
  (block : Block) :
  filter_blockHash filter = Some hash ->
  filter_fromBlock filter = None -> filter_toBlock filter = None ->
  @h _ (getBlockByHash hash) s = (inr (Some block), s') ->
  (UNSAFE_NUMBER <= blockNumberOf block)%N ->
  run h (_rpcFilterRequestToGetLogsParams filter) s
  = (inl (JsError "Number can only safely store up to 53 bits"), s',
     [invocation (getBlockByHash hash)]).
Proof.
  intros Hhash Hfrom Hto Hnode Hunsafe. unfold _rpcFilterRequestToGetLogsParams.
  rewrite Hhash, Hfrom, Hto. cbn [isSome orb bind await run]. rewrite Hnode.
  cbn [bind setBlockRange filter_fromBlock filter_toBlock filter_topics
       filter_address _extractBlock].
  unfold blockNumberOf in *. rewrite (BN_toNumber_unsafe Hunsafe). reflexivity.
Qed.

(** Each of the three requests normalises the filter first: a failure of the
    normalisation is the failure of the request. *)
Lemma run_filterMethod_error (m : FilterMethod) (filter : RpcFilterRequest) (s s' : S)
  (e : RpcError) (cs : list Invocation) :
  run h (_rpcFilterRequestToGetLogsParams filter) s = (inl e, s', cs) ->
  run h (filterMethod m filter) s = (inl e, s', cs).
Proof.
  intros Hnorm.
  destruct m; unfold filterMethod, _getLogsAction, _newFilterAction, _subscribeAction;
    rewrite run_mapP, run_bind, Hnorm; reflexivity.
Qed.

(** When the normalisation succeeds, the next call hands its criteria to the
    node, and it is the last call of the request. *)
Lemma calls_filterMethod (m : FilterMethod) (filter : RpcFilterRequest) (s s' : S)
  (criteria : FilterParams) (cs : list Invocation) :
  run h (_rpcFilterRequestToGetLogsParams filter) s = (inr criteria, s', cs) ->
  calls h (filterMethod m filter) s = cs ++ [filterCall m criteria].
Proof.
  intros Hnorm. unfold calls.
  destruct m; unfold filterMethod, filterCall, _getLogsAction, _newFilterAction,
    _subscribeAction;
    rewrite run_mapP, run_bind, Hnorm; cbn [bind await run];
    match goal with
    | |- context [@h ?X ?c s'] => destruct (@h X c s') as [[e | x] s'']
    end; reflexivity.
Qed.

(** C2, as amended. A filter request ([eth_getLogs], [eth_newFilter], the
    "logs" branch of [eth_subscribe]) that carries a [blockHash]: together
    with [fromBlock] or [toBlock] it fails with InvalidArguments before the
    node is asked anything; alone, and the node has no block of that hash, it
    fails with InvalidArguments after that one question; alone, and the node
    has the block, and the number of the block is below 2^53, [fromBlock] and
    [toBlock] of the criteria are both the number of that block, and these
    are the criteria the request hands to the node. *)
Theorem filter_blockHash_normalization (m : FilterMethod) (filter : RpcFilterRequest)
  (hash : Buffer) (s : S) :
  filter_blockHash filter = Some hash ->
  (filter_fromBlock filter <> None \/ filter_toBlock filter <> None ->
   let e := InvalidArgumentsError "blockHash is mutually exclusive with fromBlock/toBlock" in
   run h (_rpcFilterRequestToGetLogsParams filter) s = (inl e, s, [])
   /\ run h (filterMethod m filter) s = (inl e, s, []))
  /\ (filter_fromBlock filter = None -> filter_toBlock filter = None ->
      forall s', @h _ (getBlockByHash hash) s = (inr None, s') ->
      let e := InvalidArgumentsError "blockHash cannot be found" in
      run h (_rpcFilterRequestToGetLogsParams filter) s
      = (inl e, s', [invocation (getBlockByHash hash)])
      /\ run h (filterMethod m filter) s = (inl e, s', [invocation (getBlockByHash hash)]))
  /\ (filter_fromBlock filter = None -> filter_toBlock filter = None ->
      forall s' block, @h _ (getBlockByHash hash) s = (inr (Some block), s') ->
      (blockNumberOf block < UNSAFE_NUMBER)%N ->
      exists criteria,
        run h (_rpcFilterRequestToGetLogsParams filter) s
        = (inr criteria, s', [invocation (getBlockByHash hash)])
        /\ fp_fromBlock criteria = Z.of_N (blockNumberOf block)
        /\ fp_toBlock criteria = Z.of_N (blockNumberOf block)
        /\ calls h (filterMethod m filter) s
           = [invocation (getBlockByHash hash); filterCall m criteria]).
Proof.
  intros Hhash. split; [| split].
  - intros Hrange e.
    pose proof (run_filter_exclusive filter s Hhash Hrange) as Hnorm.
    split; [exact Hnorm | apply run_filterMethod_error; exact Hnorm].
  - intros Hfrom Hto s' Hnode e.
    pose proof (run_filter_unknown_hash filter Hhash Hfrom Hto Hnode) as Hnorm.
    split; [exact Hnorm | apply run_filterMethod_error; exact Hnorm].
  - intros Hfrom Hto s' block Hnode Hsafe.
    pose proof (run_filter_known_hash filter Hhash Hfrom Hto Hnode Hsafe) as Hnorm.
    eexists. split; [exact Hnorm|]. split; [reflexivity|]. split; [reflexivity|].
    erewrite calls_filterMethod by exact Hnorm. reflexivity.
Qed.

End BlockHashFacts.

Lemma filter_blockHash_normalization_witness :
  let hash := Demo.blockHash Demo.block7 in
  let filter :=
    {| filter_fromBlock := None; filter_toBlock := None; filter_address := None;
       filter_topics := None; filter_blockHash := Some hash |} in
  exists criteria,
    run Demo.node (_rpcFilterRequestToGetLogsParams (ext := Demo.externals) filter)
      Demo.start
    = (inr criteria, Demo.start, [invocation (getBlockByHash hash)])
    /\ fp_fromBlock criteria = 7%Z
    /\ fp_toBlock criteria = 7%Z
    /\ calls Demo.node (filterMethod ViaNewFilter filter) Demo.start
       = [invocation (getBlockByHash hash); filterCall ViaNewFilter criteria].
Proof.
  intros hash filter.
  exact (proj2 (proj2 (@filter_blockHash_normalization Demo.externals _ Demo.node
                         ViaNewFilter filter hash Demo.start eq_refl))
           eq_refl eq_refl Demo.start Demo.block7 eq_refl eq_refl).
Defined.

(** Without the bound the statement fails on a node that holds a block numbered
    2^53: the request carries the hash alone and the node has the block, yet
    the normalisation throws and there are no criteria. *)
Lemma filter_blockHash_normalization_counterexample :
  let hash := Demo.blockHash Demo.blockFar in
  let filter :=
    {| filter_fromBlock := None; filter_toBlock := None; filter_address := None;
       filter_topics := None; filter_blockHash := Some hash |} in
  Demo.node (getBlockByHash hash) Demo.farChain = (inr (Some Demo.blockFar), Demo.farChain)
  /\ blockNumberOf (ext := Demo.externals) Demo.blockFar = 9007199254740992%N
  /\ run Demo.node (_rpcFilterRequestToGetLogsParams (ext := Demo.externals) filter)
       Demo.farChain
     = (inl (JsError "Number can only safely store up to 53 bits"), Demo.farChain,
        [invocation (getBlockByHash hash)])
  /\ run Demo.node
       (processRequest (ext := Demo.externals) "eth_getLogs"
          (Some [JObject [("blockHash", JString (bufferToRpcData hash))]]))
       Demo.farChain
     = (inl (JsError "Number can only safely store up to 53 bits"), Demo.farChain,
        [invocation (getBlockByHash hash)]).
Proof. repeat split; reflexivity. Qed.

Lemma filter_blockHash_with_range :
  run Demo.node
    (processRequest (ext := Demo.externals) "eth_getLogs"
       (Some [JObject [("blockHash", JString (bufferToRpcData (Demo.blockHash Demo.block7)));
                       ("fromBlock", JString "0x1")]]))
    Demo.start
  = (inl (InvalidArgumentsError "blockHash is mutually exclusive with fromBlock/toBlock"),
     Demo.start, []).
Proof. reflexivity. Qed.

(** ** Subscriptions *)

Section SubscriptionFacts.

Context {ext : Externals}.

Lemma processRequest_unsubscribe (id : N) :
  processRequest "eth_unsubscribe" (Some [JString (numberToRpcQuantity id)])
  = mapP ResBoolean (_unsubscribeAction id).
Proof.
  pose proof (decodeQuantity_numberToRpcQuantity id) as Hdecode.
  generalize dependent (numberToRpcQuantity id). intros wire Hdecode.
  cbv beta iota zeta delta [processRequest String.eqb Ascii.eqb Bool.eqb].
  unfold _unsubscribeParams, validateParams.
  cbn [length Nat.ltb Nat.leb requiredParams optionalTail tailOptional andb Nat.sub
       decodeParams hd tl decode Decoders.quantity].
  rewrite Hdecode. reflexivity.
Qed.

Lemma subscribeParams_not_callable (params : list JsValue) :
  length params < 2 \/ isFunction (last params JUndefined) = false ->
  exists message, _subscribeParams params = inl (InvalidInputError message).
Proof.
  intros H. unfold _subscribeParams.
  destruct (Nat.eqb_spec (length params) 0); [eexists; reflexivity|].
  destruct (Nat.eqb_spec (length params) 1); [eexists; reflexivity|].
  destruct H as [H | H]; [lia|].
  destruct (last params JUndefined); try (eexists; reflexivity).
  discriminate H.
Qed.

(** C5, as amended. For [eth_subscribe]: the "logs" kind without filter
    criteria fails with InvalidArguments "missing params argument"; when the
    last argument is missing or is not a function, the request fails with
    InvalidInput; a request [subscribe("newHeads", callback)] registers the
    callback with the node and returns the id that the node gives, encoded as
    a quantity, and [eth_unsubscribe] accepts that string: it decodes to the
    same id, which, when it is below 2^53, is the one the node is asked to
    uninstall, as a subscription; from 2^53 on the conversion of the id
    throws and the node is not asked. *)
Theorem subscribe_requests :
  (forall callback,
      _subscribeAction Logs None callback
      = Throw (InvalidArgumentsError "missing params argument")
      /\ processRequest "eth_subscribe" (Some [JString "logs"; JFunction callback])
         = Throw (InvalidArgumentsError "missing params argument"))
  /\ (forall params,
         length params < 2 \/ isFunction (last params JUndefined) = false ->
         exists message,
           _subscribeParams params = inl (InvalidInputError message)
           /\ processRequest "eth_subscribe" (Some params)
              = Throw (InvalidInputError message))
  /\ processRequest "eth_subscribe" None
     = Throw (InvalidInputError "Notifications not supported")
  /\ (forall (S : Type) (h : Handler S) (s s' : S) (callback : Callback) (id : N),
         h _ (newBlockFilter (Some callback)) s = (inr id, s') ->
         run h (processRequest "eth_subscribe"
                  (Some [JString "newHeads"; JFunction callback])) s
         = (inr (ResString (numberToRpcQuantity id)), s',
            [invocation (newBlockFilter (Some callback))])
         /\ decodeQuantity (numberToRpcQuantity id) = Some id
         /\ _unsubscribeParams [JString (numberToRpcQuantity id)] = inr (id, tt)
         /\ ((id < UNSAFE_NUMBER)%N ->
             calls h (processRequest "eth_unsubscribe"
                        (Some [JString (numberToRpcQuantity id)])) s'
             = [invocation (uninstallFilter (Z.of_N id) true)]
             /\ forall removed s'',
                 h _ (uninstallFilter (Z.of_N id) true) s' = (inr removed, s'') ->
                 run h (processRequest "eth_unsubscribe"
                          (Some [JString (numberToRpcQuantity id)])) s'
                 = (inr (ResBoolean removed), s'',
                    [invocation (uninstallFilter (Z.of_N id) true)]))
         /\ ((UNSAFE_NUMBER <= id)%N ->
             run h (processRequest "eth_unsubscribe"
                      (Some [JString (numberToRpcQuantity id)])) s'
             = (inl (JsError "Number can only safely store up to 53 bits"), s', []))).
Proof.
  split; [| split; [| split]].
  - intros callback. split; reflexivity.
  - intros params H.
    destruct (subscribeParams_not_callable params H) as [message Hm].
    exists message. split; [exact Hm|].
    cbv beta iota zeta delta [processRequest String.eqb Ascii.eqb Bool.eqb].
    rewrite Hm. reflexivity.
  - reflexivity.
  - intros S h s s' callback id Hnode. split; [| split; [| split; [| split]]].
    + change (processRequest "eth_subscribe"
                (Some [JString "newHeads"; JFunction callback]))
        with (mapP ResString (_subscribeAction NewHeads None callback)).
      cbn [mapP _subscribeAction bind await run]. rewrite Hnode. reflexivity.
    + apply decodeQuantity_numberToRpcQuantity.
    + unfold _unsubscribeParams, validateParams.
      cbn [length Nat.ltb Nat.leb requiredParams optionalTail tailOptional andb Nat.sub
           decodeParams hd tl decode Decoders.quantity].
      rewrite decodeQuantity_numberToRpcQuantity. reflexivity.
    + intros Hsafe. rewrite processRequest_unsubscribe. unfold calls.
      unfold _unsubscribeAction. rewrite (BN_toNumber_safe Hsafe).
      cbn [mapP lift bind await run]. split.
      * destruct (h _ (uninstallFilter (Z.of_N id) true) s') as [[e | removed] s''];
          reflexivity.
      * intros removed s'' Hun. rewrite Hun. reflexivity.
    + intros Hunsafe. rewrite processRequest_unsubscribe.
      unfold _unsubscribeAction. rewrite (BN_toNumber_unsafe Hunsafe). reflexivity.
Qed.

End SubscriptionFacts.

Lemma subscribe_requests_witness :
  run Demo.node
    (processRequest (ext := Demo.externals) "eth_subscribe"
       (Some [JString "newHeads"; JFunction 7])) Demo.start
  = (inr (ResString "0x1"), Demo.withFilter Demo.start,
     [invocation (newBlockFilter (Some 7))])
  /\ decodeQuantity "0x1" = Some 1%N
  /\ _unsubscribeParams [JString "0x1"] = inr (1%N, tt)
  /\ calls Demo.node
       (processRequest (ext := Demo.externals) "eth_unsubscribe" (Some [JString "0x1"]))
       (Demo.withFilter Demo.start)
     = [invocation (uninstallFilter 1%Z true)].
Proof.
  destruct (proj2 (proj2 (proj2 (subscribe_requests (ext := Demo.externals))))
              _ Demo.node Demo.start (Demo.withFilter Demo.start) 7 1%N eq_refl)
    as (Hrun & Hdecode & Hparams & Hsafe & _).
  exact (conj Hrun (conj Hdecode (conj Hparams (proj1 (Hsafe eq_refl))))).
Defined.

(** Without the bound the statement fails on a node whose next filter id is 2^53:
    the subscription succeeds and returns that id as a quantity,
    [eth_unsubscribe] accepts the string and decodes the same id, yet the
    node is never asked to uninstall it. *)
Lemma subscribe_requests_counterexample :
  run Demo.node
    (processRequest (ext := Demo.externals) "eth_subscribe"
       (Some [JString "newHeads"; JFunction 7])) Demo.manyFilters
  = (inr (ResString "0x20000000000000"), Demo.withFilter Demo.manyFilters,
     [invocation (newBlockFilter (Some 7))])
  /\ _unsubscribeParams [JString "0x20000000000000"] = inr (9007199254740992%N, tt)
  /\ run Demo.node
       (processRequest (ext := Demo.externals) "eth_unsubscribe"
          (Some [JString "0x20000000000000"]))
       (Demo.withFilter Demo.manyFilters)
     = (inl (JsError "Number can only safely store up to 53 bits"),
        Demo.withFilter Demo.manyFilters, [])
  /\ calls Demo.node
       (processRequest (ext := Demo.externals) "eth_unsubscribe"
          (Some [JString "0x20000000000000"]))
       (Demo.withFilter Demo.manyFilters)
     <> [invocation (uninstallFilter 9007199254740992%Z true)].
Proof. repeat split; try reflexivity. discriminate. Qed.

Lemma subscribe_then_unsubscribe :
  outcome Demo.node
    (processRequest (ext := Demo.externals) "eth_unsubscribe" (Some [JString "0x1"]))
    (Demo.withFilter Demo.start)
  = inr (ResBoolean true)
  /\ outcome Demo.node
       (processRequest (ext := Demo.externals) "eth_subscribe" (Some [JString "newHeads"]))
       Demo.start
     = inl (InvalidInputError "Expected subscription name as first argument")
  /\ outcome Demo.node
       (processRequest (ext := Demo.externals) "eth_subscribe"
          (Some [JString "newHeads"; JString "0x1"]))
       Demo.start
     = inl (InvalidInputError "Notifications not supported").
Proof. repeat split; reflexivity. Qed.

(** ** The number of arguments *)

Section ArityFacts.

Context {ext : Externals}.

Lemma length_removelast (params : list JsValue) :
  length (removelast params) = length params - 1.
Proof.
  rewrite removelast_firstn_len, length_firstn. lia.
Qed.

(** Every method whose parameter stage is [validateParams] rejects a list of
    arguments that is longer than its schema, and one that is shorter than
    its required positions. *)
Lemma validated_methods_arity (method : string) (schema : list Codec)
  (params : list JsValue) :
  In (method, schema) validatedMethods ->
  length schema < length params \/ length params < requiredParams schema ->
  exists message,
    processRequest method (Some params) = Throw (InvalidInputError message).
Proof.
  intros Hin Harity. cbn [In validatedMethods] in Hin.
  repeat (destruct Hin as [Hin | Hin];
          [ injection Hin as <- <-;
            cbv beta iota zeta delta [processRequest String.eqb Ascii.eqb Bool.eqb];
            autounfold with eth;
            destruct Harity as [Hmany | Hfew];
            [ rewrite (validateParams_too_many _ _ Hmany)
            | rewrite (validateParams_too_few _ _ Hfew) ];
            eexists; reflexivity
          | ]).
  contradiction.
Qed.

(** [eth_subscribe] takes a name, optional criteria and the callback: more
    than three arguments, or fewer than two, are rejected. *)
Lemma subscribe_arity (params : list JsValue) :
  3 < length params \/ length params < 2 ->
  exists message,
    processRequest "eth_subscribe" (Some params) = Throw (InvalidInputError message).
Proof.
  intros Harity.
  cbv beta iota zeta delta [processRequest String.eqb Ascii.eqb Bool.eqb].
  destruct Harity as [Hmany | Hfew].
  - unfold _subscribeParams.
    destruct (Nat.eqb_spec (length params) 0); [lia|].
    destruct (Nat.eqb_spec (length params) 1); [lia|].
    destruct (last params JUndefined); try (eexists; reflexivity).
    rewrite validateParams_too_many; [eexists; reflexivity|].
    rewrite length_removelast. cbn [length]. lia.
  - destruct (subscribeParams_not_callable params (or_introl Hfew)) as [message Hm].
    rewrite Hm. eexists. reflexivity.
Qed.

(** The supported table is made of the methods that validate their arguments,
    the three that do not, and [eth_subscribe], which checks its own. *)
Lemma supported_partition (method : string) :
  In method supportedMethods <->
  (exists schema, In (method, schema) validatedMethods)
  \/ In method unvalidatedMethods
  \/ method = "eth_subscribe".
Proof.
  split.
  - intros Hin. cbn [In supportedMethods] in Hin.
    repeat (destruct Hin as [<- | Hin];
            [ first
                [ left; eexists; cbn [In validatedMethods];
                  solve [repeat first [left; reflexivity | right]]
                | right; left; cbn [In unvalidatedMethods];
                  solve [repeat first [left; reflexivity | right]]
                | right; right; reflexivity ]
            | ]).
    contradiction.
  - intros [[schema Hin] | [Hin | ->]].
    + exact (validated_supported Hin).
    + cbn [In unvalidatedMethods] in Hin.
      repeat (destruct Hin as [<- | Hin];
              [cbn [In supportedMethods]; repeat first [left; reflexivity | right] |]).
      contradiction.
    + cbn [In supportedMethods]. repeat first [left; reflexivity | right].
Qed.

(** C9. The parameter stage of [eth_newBlockFilter],
    [eth_newPendingTransactionFilter] and [eth_pendingTransactions] returns
    the empty tuple without looking at the arguments: whatever the arguments,
    the request is the action of the method, and nothing in it throws.  With
    the one extra argument ["0x1"], [eth_newBlockFilter] installs a filter in
    the node and returns its id; the same argument makes [eth_mining] and
    [eth_accounts], which take no argument either, fail in
    [validateParams]. *)
Theorem unvalidated_methods_ignore_arguments :
  (forall params : option (list JsValue),
      processRequest "eth_newBlockFilter" params = mapP ResString _newBlockFilterAction
      /\ processRequest "eth_newPendingTransactionFilter" params
         = mapP ResString _newPendingTransactionAction
      /\ processRequest "eth_pendingTransactions" params
         = mapP ResTransactions _pendingTransactionsAction)
  /\ (forall method params e,
         In method unvalidatedMethods -> ~ Throws (processRequest method params) e)
  /\ run Demo.node
       (processRequest (ext := Demo.externals) "eth_newBlockFilter"
          (Some [JString "0x1"])) Demo.start
     = (inr (ResString "0x1"), Demo.withFilter Demo.start,
        [invocation (newBlockFilter None)])
  /\ processRequest "eth_mining" (Some [JString "0x1"])
     = Throw (InvalidInputError "Too many arguments")
  /\ processRequest "eth_accounts" (Some [JString "0x1"])
     = Throw (InvalidInputError "Too many arguments").
Proof.
  split; [| split; [| split; [| split]]]; try reflexivity.
  - intros params. split; [| split]; reflexivity.
  - intros method params e Hin.
    assert (Hnone : AllThrows (fun _ => False) (processRequest method params)).
    { cbn [In unvalidatedMethods] in Hin.
      repeat (destruct Hin as [<- | Hin]); [.. | contradiction];
        cbv beta iota zeta delta [processRequest String.eqb Ascii.eqb Bool.eqb];
        autounfold with eth; cbn [invoke];
        repeat first [ apply AllThrows_mapP | apply AllThrows_bind; [| intros]
                     | apply AllThrows_await | apply AllThrows_Ret ]. }
    exact (Hnone e).
Qed.

End ArityFacts.


(** * Further properties of the module *)

(** ** What a program can call *)

Section CallFacts.

Context {ext : Externals}.

Lemma Calls_Call_inv {A X : Type} (c : NodeCall X) (k : X -> Prog A) (i : Invocation) :
  Calls (Call c k) i -> i = invocation c \/ exists x, Calls (k x) i.
Proof.
  intros H.
  refine (match H in Calls p i'
                return match p with
                       | Call c' k' => i' = invocation c' \/ exists x, Calls (k' x) i'
                       | _ => True
                       end
          with
          | Calls_here c' k' => or_introl eq_refl
          | Calls_later c' k' x Hx => or_intror (ex_intro _ x Hx)
          end).
Qed.

Lemma AllCalls_Ret {A : Type} (P : Invocation -> Prop) (a : A) : AllCalls P (Ret a).
Proof. intros i H. inversion H. Qed.

Lemma AllCalls_Throw {A : Type} (P : Invocation -> Prop) (e : RpcError) :
  AllCalls P (Throw (A := A) e).
Proof. intros i H. inversion H. Qed.

Lemma AllCalls_Call {A X : Type} (P : Invocation -> Prop) (c : NodeCall X)
  (k : X -> Prog A) :
  P (invocation c) -> (forall x, AllCalls P (k x)) -> AllCalls P (Call c k).
Proof.
  intros Hc Hk i H. destruct (Calls_Call_inv H) as [-> | [x Hx]].
  - exact Hc.
  - exact (Hk x i Hx).
Qed.

Lemma AllCalls_bind {A B : Type} (P : Invocation -> Prop) (p : Prog A)
  (f : A -> Prog B) :
  AllCalls P p -> (forall a, AllCalls P (f a)) -> AllCalls P (bind p f).
Proof.
  induction p as [a | e | X c k IH]; intros Hp Hf; cbn [bind].
  - apply Hf.
  - apply AllCalls_Throw.
  - apply AllCalls_Call.
    + apply Hp. constructor.
    + intros x. apply IH; [|exact Hf].
      intros i Hi. apply Hp. econstructor. exact Hi.
Qed.

Lemma AllCalls_await {X : Type} (P : Invocation -> Prop) (c : NodeCall X) :
  P (invocation c) -> AllCalls P (await c).
Proof. intros H. apply AllCalls_Call; [exact H|]. intros x. apply AllCalls_Ret. Qed.

Lemma AllCalls_lift {A : Type} (P : Invocation -> Prop) (r : Result A) :
  AllCalls P (lift r).
Proof. destruct r; [apply AllCalls_Throw | apply AllCalls_Ret]. Qed.

Lemma AllCalls_mapP {A B : Type} (P : Invocation -> Prop) (f : A -> B) (p : Prog A) :
  AllCalls P p -> AllCalls P (mapP f p).
Proof.
  intros H. apply AllCalls_bind; [exact H|]. intros a. apply AllCalls_Ret.
Qed.

Lemma AllCalls_invoke {T A : Type} (P : Invocation -> Prop) (args : Result T)
  (action : T -> Prog A) (wrap : A -> RpcResult) :
  (forall a, AllCalls P (action a)) -> AllCalls P (invoke args action wrap).
Proof.
  intros H. destruct args as [e | a]; cbn [invoke].
  - apply AllCalls_Throw.
  - apply AllCalls_mapP. apply H.
Qed.

(** The calls that a run logs are calls that the program can make. *)
Lemma calls_Calls {S A : Type} (h : Handler S) (p : Prog A) (s : S) (i : Invocation) :
  In i (calls h p s) -> Calls p i.
Proof.
  unfold calls. revert s. induction p as [a | e | X c k IH]; intros s; cbn [run].
  - intros [].
  - intros [].
  - destruct (h X c s) as [[e | x] s'].
    + cbn. intros [<- | []]. constructor.
    + specialize (IH x s'). destruct (run h (k x) s') as [[r s''] cs].
      cbn in *. intros [<- | Hin]; [constructor|].
      econstructor. apply IH. exact Hin.
Qed.

End CallFacts.

(** ** Which methods reach which node operations *)

Section FootprintFacts.

Context {ext : Externals}.

Ltac calls_step :=
  first
    [ apply AllCalls_Ret
    | apply AllCalls_Throw
    | apply AllCalls_lift
    | apply AllCalls_await; reflexivity
    | apply AllCalls_mapP
    | apply AllCalls_bind; [| intros]
    | apply AllCalls_Call; [reflexivity | intros]
    | match goal with
      | |- AllCalls _ (match ?x with _ => _ end) => destruct x
      end ].

Ltac calls_all := autounfold with eth; cbn beta zeta; repeat calls_step.

Ltac by_method method excluded :=
  unfold processRequest;
  repeat match goal with
         | |- context [String.eqb method ?name] =>
             destruct (String.eqb_spec method name) as [-> | _];
             [ cbv iota;
               first
                 [ solve [ exfalso; apply excluded; cbn [In sendMethods filterUpdateMethods];
                           repeat first [left; reflexivity | right] ]
                 | solve [ apply AllCalls_Throw ]
                 | solve [ apply AllCalls_invoke; intros a; cbn in a;
                           repeat match goal with x : (_ * _)%type |- _ => destruct x end;
                           calls_all ] ]
             | cbv iota ]
         end;
  apply AllCalls_Throw.

Lemma only_send_methods_run_transactions (method : string)
  (params : option (list JsValue)) :
  ~ In method sendMethods ->
  AllCalls (fun i => isRunTransaction i = false) (processRequest method params).
Proof. intros Hnot. by_method method Hnot. Qed.

Lemma only_filter_methods_update_filters (method : string)
  (params : option (list JsValue)) :
  ~ In method filterUpdateMethods ->
  AllCalls (fun i => isFilterUpdate i = false) (processRequest method params).
Proof. intros Hnot. by_method method Hnot. Qed.

(** X1. Whatever the node answers, a request asks the node to run a
    transaction in a new block only when its method is
    [eth_sendRawTransaction] or [eth_sendTransaction]. *)
Theorem runTransaction_only_from_send_methods (S : Type) (h : Handler S) (s : S)
  (method : string) (params : option (list JsValue)) (i : Invocation) :
  In i (calls h (processRequest method params) s) ->
  isRunTransaction i = true ->
  method = "eth_sendRawTransaction" \/ method = "eth_sendTransaction".
Proof.
  intros Hin Hrun.
  destruct (in_dec string_dec method sendMethods) as [Hsend | Hnot].
  - cbn in Hsend. destruct Hsend as [<- | [<- | []]]; [left | right]; reflexivity.
  - pose proof (only_send_methods_run_transactions params Hnot (calls_Calls _ _ _ _ Hin))
      as Hnone.
    cbn beta in Hnone. rewrite Hrun in Hnone. discriminate Hnone.
Qed.

(** X2. Whatever the node answers, a request installs or removes a filter in
    the node only when its method is one of [eth_newBlockFilter],
    [eth_newFilter], [eth_newPendingTransactionFilter], [eth_subscribe],
    [eth_uninstallFilter] and [eth_unsubscribe]. *)
Theorem filter_updates_only_from_filter_methods (S : Type) (h : Handler S) (s : S)
  (method : string) (params : option (list JsValue)) (i : Invocation) :
  In i (calls h (processRequest method params) s) ->
  isFilterUpdate i = true ->
  In method filterUpdateMethods.
Proof.
  intros Hin Hupdate.
  destruct (in_dec string_dec method filterUpdateMethods) as [Hfilter | Hnot];
    [exact Hfilter|].
  pose proof (only_filter_methods_update_filters params Hnot (calls_Calls _ _ _ _ Hin))
    as Hnone.
  cbn beta in Hnone. rewrite Hupdate in Hnone. discriminate Hnone.
Qed.

End FootprintFacts.

Lemma runTransaction_only_from_send_methods_witness :
  let i := invocation (@runTransactionInNewBlock Demo.externals [x03]) in
  let method := "eth_sendRawTransaction" in
  In i (calls Demo.node (processRequest method (Some [JString "0x03"])) Demo.start)
  /\ isRunTransaction i = true
  /\ (method = "eth_sendRawTransaction" \/ method = "eth_sendTransaction").
Proof.
  intros i method.
  assert (Hin : In i (calls Demo.node (processRequest method (Some [JString "0x03"]))
                        Demo.start)) by (left; reflexivity).
  split; [exact Hin|]. split; [reflexivity|].
  exact (@runTransaction_only_from_send_methods Demo.externals _ Demo.node Demo.start
           method (Some [JString "0x03"]) i Hin eq_refl).
Defined.

Lemma filter_updates_only_from_filter_methods_witness :
  let i := invocation (@uninstallFilter Demo.externals 1%Z false) in
  let method := "eth_uninstallFilter" in
  In i (calls Demo.node (processRequest method (Some [JString "0x1"])) Demo.start)
  /\ isFilterUpdate i = true
  /\ In method filterUpdateMethods.
Proof.
  intros i method.
  assert (Hin : In i (calls Demo.node (processRequest method (Some [JString "0x1"]))
                        Demo.start)) by (left; reflexivity).
  split; [exact Hin|]. split; [reflexivity|].
  exact (@filter_updates_only_from_filter_methods Demo.externals _ Demo.node Demo.start
           method (Some [JString "0x1"]) i Hin eq_refl).
Defined.

(** ** Transactions: defaults, signing and submission *)

Section TransactionFacts.

Context {ext : Externals} {S : Type} (h : Handler S).

(** X3. The normalisation of a transaction request, against a node that
    reports its block gas limit, its gas price and the nonce of the sender:
    [from] is the sender of the request; a field that is present is passed on
    unchanged and costs no node call; an omitted [to] and [data] become the
    empty byte sequence, an omitted [value] 0, an omitted [gas] the block gas
    limit, an omitted [gasPrice] the gas price of the node, and an omitted
    [nonce] the nonce that the node reports for the sender.
    [eth_estimateGas] hands exactly these parameters to [estimateGas], and
    [eth_sendTransaction] to [getSignedTransaction]. *)
Theorem rpcTransactionRequestToNodeTransactionParams_defaults (s : S)
  (rpcTx : RpcTransactionRequest) (gasLimit gasPrice nonce : BN) :
  @h _ getBlockGasLimit s = (inr gasLimit, s) ->
  @h _ getGasPrice s = (inr gasPrice, s) ->
  @h _ (getAccountNonce (tx_from rpcTx)) s = (inr nonce, s) ->
  let txParams :=
    {| tp_to := orDefault (tx_to rpcTx) [];
       tp_from := tx_from rpcTx;
       tp_gasLimit := orDefault (tx_gas rpcTx) gasLimit;
       tp_gasPrice := orDefault (tx_gasPrice rpcTx) gasPrice;
       tp_value := orDefault (tx_value rpcTx) 0%N;
       tp_data := orDefault (tx_data rpcTx) [];
       tp_nonce := orDefault (tx_nonce rpcTx) nonce |} in
  run h (_rpcTransactionRequestToNodeTransactionParams rpcTx) s
  = (inr txParams, s, txDefaultReads rpcTx)
  /\ (forall blockTag, acceptedTag blockTag = true ->
        calls h (_estimateGasAction rpcTx blockTag) s
        = txDefaultReads rpcTx ++ [invocation (estimateGas txParams)])
  /\ (exists rest,
        calls h (_sendTransactionAction rpcTx) s
        = txDefaultReads rpcTx ++ invocation (getSignedTransaction txParams) :: rest).
Proof.
  intros Hlimit Hprice Hnonce txParams.
  assert (Hnorm : run h (_rpcTransactionRequestToNodeTransactionParams rpcTx) s
                  = (inr txParams, s, txDefaultReads rpcTx)).
  { subst txParams. unfold _rpcTransactionRequestToNodeTransactionParams, txDefaultReads.
    destruct rpcTx as [from to gas price value data txNonce];
      cbn [tx_from tx_to tx_gas tx_gasPrice tx_value tx_data tx_nonce orDefault isSome]
        in *.
    rewrite run_bind.
    destruct gas as [gas|];
      [cbn [run] | rewrite (run_await_ok h Hlimit)];
      (rewrite run_bind;
       destruct price as [price|];
       [cbn [run] | rewrite (run_await_ok h Hprice)];
       (rewrite run_bind;
        destruct txNonce as [txNonce|];
        [cbn [run] | rewrite (run_await_ok h Hnonce)];
        reflexivity)). }
  split; [exact Hnorm|]. split.
  - intros blockTag Htag. unfold calls, _estimateGasAction.
    rewrite acceptedTag_validate, Htag. cbn [lift bind]. rewrite run_bind, Hnorm.
    cbn [bind await run].
    destruct (@h _ (estimateGas txParams) s) as [[e | gas] s']; reflexivity.
  - unfold calls, _sendTransactionAction. rewrite run_bind, Hnorm.
    cbn [bind await run].
    destruct (@h _ (getSignedTransaction txParams) s) as [[e | tx] s'];
      [exists []; reflexivity|].
    destruct (@h _ (runTransactionInNewBlock tx) s') as [[e | []] s''];
      eexists; reflexivity.
Qed.

(** X4. [eth_sendTransaction], once the request is normalised: the node signs
    the normalised parameters, the signed transaction is the one that is run
    in a new block, and the result is the data encoding of its hash.  When
    the node refuses to sign, the request fails with the node's error and no
    transaction is run. *)
Theorem sendTransaction_signs_then_runs (s s0 : S) (rpcTx : RpcTransactionRequest)
  (txParams : TransactionParams) (reads : list Invocation) :
  run h (_rpcTransactionRequestToNodeTransactionParams rpcTx) s
  = (inr txParams, s0, reads) ->
  (forall tx s1 s2,
      @h _ (getSignedTransaction txParams) s0 = (inr tx, s1) ->
      @h _ (runTransactionInNewBlock tx) s1 = (inr tt, s2) ->
      run h (_sendTransactionAction rpcTx) s
      = (inr (bufferToRpcData (Transaction_hash tx)), s2,
         reads ++ [invocation (getSignedTransaction txParams);
                   invocation (runTransactionInNewBlock tx)]))
  /\ (forall e s1,
         @h _ (getSignedTransaction txParams) s0 = (inl e, s1) ->
         run h (_sendTransactionAction rpcTx) s
         = (inl e, s1, reads ++ [invocation (getSignedTransaction txParams)]))
  /\ (forall tx e s1 s2,
         @h _ (getSignedTransaction txParams) s0 = (inr tx, s1) ->
         @h _ (runTransactionInNewBlock tx) s1 = (inl e, s2) ->
         outcome h (_sendTransactionAction rpcTx) s = inl e).
Proof.
  intros Hnorm. unfold outcome, _sendTransactionAction.
  split; [| split]; intros; rewrite run_bind, Hnorm; cbn [bind await run];
    repeat match goal with
           | H : @h _ _ _ = _ |- _ => rewrite H; clear H
           end; reflexivity.
Qed.

(** X5. [eth_sendRawTransaction] on bytes that decode to a transaction: the
    node is asked exactly once, to run that transaction in a new block; when
    it does, the result is the data encoding of the hash of the transaction,
    and when it throws, its error is the outcome. *)
Theorem sendRawTransaction_runs_once (s : S) (rawTx : Buffer) (tx : Transaction) :
  Transaction_new rawTx = inr tx ->
  calls h (_sendRawTransactionAction rawTx) s = [invocation (runTransactionInNewBlock tx)]
  /\ (forall s', @h _ (runTransactionInNewBlock tx) s = (inr tt, s') ->
        run h (_sendRawTransactionAction rawTx) s
        = (inr (bufferToRpcData (Transaction_hash tx)), s',
           [invocation (runTransactionInNewBlock tx)]))
  /\ (forall e s', @h _ (runTransactionInNewBlock tx) s = (inl e, s') ->
        run h (_sendRawTransactionAction rawTx) s
        = (inl e, s', [invocation (runTransactionInNewBlock tx)])).
Proof.
  intros Hnew. unfold calls, _sendRawTransactionAction. rewrite Hnew.
  cbn [bind await run]. split; [| split].
  - destruct (@h _ (runTransactionInNewBlock tx) s) as [[e | []] s']; reflexivity.
  - intros s' Hrun. rewrite Hrun. reflexivity.
  - intros e s' Hrun. rewrite Hrun. reflexivity.
Qed.

End TransactionFacts.

Lemma rpcTransactionRequestToNodeTransactionParams_defaults_witness :
  let rpcTx :=
    {| tx_from := Demo.accountA; tx_to := None; tx_gas := Some 21000%N;
       tx_gasPrice := None; tx_value := None; tx_data := None; tx_nonce := None |} in
  let txParams :=
    {| tp_to := []; tp_from := Demo.accountA; tp_gasLimit := 21000%N;
       tp_gasPrice := 8000000000%N; tp_value := 0%N; tp_data := []; tp_nonce := 0%N |} in
  run Demo.node
    (_rpcTransactionRequestToNodeTransactionParams (ext := Demo.externals) rpcTx)
    Demo.start
  = (inr txParams, Demo.start, txDefaultReads rpcTx)
  /\ (forall blockTag, acceptedTag blockTag = true ->
        calls Demo.node (_estimateGasAction rpcTx blockTag) Demo.start
        = txDefaultReads rpcTx ++ [invocation (estimateGas txParams)])
  /\ (exists rest,
        calls Demo.node (_sendTransactionAction rpcTx) Demo.start
        = txDefaultReads rpcTx ++ invocation (getSignedTransaction txParams) :: rest).
Proof.
  intros rpcTx txParams.
  exact (@rpcTransactionRequestToNodeTransactionParams_defaults Demo.externals _
           Demo.node Demo.start rpcTx 9500000%N 8000000000%N 0%N
           eq_refl eq_refl eq_refl).
Defined.

Lemma sendTransaction_signs_then_runs_witness :
  let rpcTx :=
    {| tx_from := Demo.accountA; tx_to := Some Demo.accountB; tx_gas := None;
       tx_gasPrice := None; tx_value := None; tx_data := Some [x03; x04];
       tx_nonce := Some 5%N |} in
  let txParams :=
    {| tp_to := Demo.accountB; tp_from := Demo.accountA; tp_gasLimit := 9500000%N;
       tp_gasPrice := 8000000000%N; tp_value := 0%N; tp_data := [x03; x04];
       tp_nonce := 5%N |} in
  run Demo.node (_sendTransactionAction (ext := Demo.externals) rpcTx) Demo.start
  = (inr "0x0304", Demo.withTransaction Demo.start [x03; x04],
     [invocation getBlockGasLimit; invocation getGasPrice;
      invocation (getSignedTransaction txParams);
      invocation (@runTransactionInNewBlock Demo.externals [x03; x04])]).
Proof.
  intros rpcTx txParams.
  exact (proj1 (@sendTransaction_signs_then_runs Demo.externals _ Demo.node Demo.start
                  Demo.start rpcTx txParams
                  [invocation getBlockGasLimit; invocation getGasPrice] eq_refl)
           [x03; x04] Demo.start (Demo.withTransaction Demo.start [x03; x04])
           eq_refl eq_refl).
Defined.

Lemma sendRawTransaction_runs_once_witness :
  run Demo.node (_sendRawTransactionAction (ext := Demo.externals) [x03; x04]) Demo.start
  = (inr "0x0304", Demo.withTransaction Demo.start [x03; x04],
     [invocation (@runTransactionInNewBlock Demo.externals [x03; x04])]).
Proof.
  exact (proj1 (proj2 (@sendRawTransaction_runs_once Demo.externals _ Demo.node
                         Demo.start [x03; x04] [x03; x04] eq_refl))
           (Demo.withTransaction Demo.start [x03; x04]) eq_refl).
Defined.

(** ** Indices into the transactions of a block *)

Section IndexFacts.

Lemma at_index_of_N {A : Type} (l : list A) (i : N) :
  at_index l (Z.of_N i) = nth_error l (N.to_nat i).
Proof.
  unfold at_index.
  destruct (Z.ltb_spec (Z.of_N i) 0) as [Hneg | _]; [lia|].
  rewrite <- Z_N_nat, N2Z.id. reflexivity.
Qed.

Lemma at_index_of_nat {A : Type} (l : list A) (n : nat) :
  at_index l (Z.of_nat n) = nth_error l n.
Proof.
  unfold at_index.
  destruct (Z.ltb_spec (Z.of_nat n) 0) as [Hneg | _]; [lia|].
  rewrite Nat2Z.id. reflexivity.
Qed.

Lemma Buffer_equals_true (a b : Buffer) : Buffer_equals a b = true <-> a = b.
Proof.
  unfold Buffer_equals. destruct (list_eq_dec Byte.byte_eq_dec a b); split;
    intros H; try reflexivity; try assumption; try discriminate; contradiction.
Qed.

Lemma findIndexFrom_cases {A : Type} (p : A -> bool) (l : list A) (k : number) :
  (0 <= k)%Z ->
  (findIndexFrom p l k = (-1)%Z /\ forall x, In x l -> p x = false)
  \/ (exists n x,
         findIndexFrom p l k = (k + Z.of_nat n)%Z
         /\ nth_error l n = Some x /\ p x = true
         /\ forall m y, m < n -> nth_error l m = Some y -> p y = false).
Proof.
  revert k. induction l as [|a rest IH]; intros k Hk; cbn [findIndexFrom].
  - left. split; [reflexivity|]. intros x [].
  - destruct (p a) eqn:Hpa.
    + right. exists 0, a. repeat split.
      * lia.
      * exact Hpa.
      * intros m y Hm. lia.
    + destruct (IH (k + 1)%Z ltac:(lia)) as [[Hnone Hall] | [n [x [Hi [Hn [Hp Hbefore]]]]]].
      * left. split; [exact Hnone|]. intros x [<- | Hin]; [exact Hpa | exact (Hall x Hin)].
      * right. exists (Datatypes.S n), x. repeat split.
        -- rewrite Hi. lia.
        -- exact Hn.
        -- exact Hp.
        -- intros [|m] y Hm Hy; cbn in Hy.
           ++ injection Hy as <-. exact Hpa.
           ++ apply (Hbefore m y); [lia | exact Hy].
Qed.

(** [findIndex] returns [-1] when no element satisfies the test, and the
    index of the first one that does otherwise. *)
Lemma findIndex_cases {A : Type} (p : A -> bool) (l : list A) :
  (findIndex p l = (-1)%Z /\ forall x, In x l -> p x = false)
  \/ firstMatchAt p l (findIndex p l).
Proof.
  unfold findIndex.
  destruct (findIndexFrom_cases p l (k := 0%Z) ltac:(lia))
    as [H | [n [x [Hi [Hn [Hp Hbefore]]]]]]; [left; exact H | right].
  rewrite Hi. cbn [Z.add]. unfold firstMatchAt. split; [lia|]. split.
  - exists x. rewrite at_index_of_nat. split; assumption.
  - intros j y Hj Hy.
    replace j with (Z.of_nat (Z.to_nat j)) in Hy by lia.
    rewrite at_index_of_nat in Hy. apply (Hbefore (Z.to_nat j) y); [lia | exact Hy].
Qed.

End IndexFacts.

(** ** Looking up blocks and transactions *)

Section LookupFacts.

Context {ext : Externals} {S : Type} (h : Handler S).

Ltac run_steps :=
  repeat (cbn [mapP bind await run lift];
          match goal with
          | H : @h _ _ _ = _ |- _ => rewrite H
          end);
  cbn [mapP bind await run lift].

(** X6. The tag of [eth_getBlockByNumber]: "earliest" and "pending" make the
    method throw InvalidInput before any call to the node; "latest" reads the
    latest block of the node and a block number reads the block of that
    number, in each case followed by one question for the total difficulty of
    the block found; a number that the node has no block for gives [null]
    after that single call. *)
Theorem getBlockByNumber_tags (s : S) (includeTransactions : bool) :
  (forall tag, tag = Some Earliest \/ tag = Some Pending ->
     run h (_getBlockByNumberAction tag includeTransactions) s
     = (inl (InvalidInputError
               "eth_getBlockByNumber doesn't support earliest nor pending "),
        s, []))
  /\ (forall block totalDifficulty s1 s2,
         @h _ getLatestBlock s = (inr block, s1) ->
         @h _ (getBlockTotalDifficulty block) s1 = (inr totalDifficulty, s2) ->
         run h (_getBlockByNumberAction (Some Latest) includeTransactions) s
         = (inr (Some (getRpcBlock block totalDifficulty includeTransactions)), s2,
            [invocation getLatestBlock; invocation (getBlockTotalDifficulty block)]))
  /\ (forall n block totalDifficulty s1 s2,
         @h _ (getBlockByNumber (Some n)) s = (inr (Some block), s1) ->
         @h _ (getBlockTotalDifficulty block) s1 = (inr totalDifficulty, s2) ->
         run h (_getBlockByNumberAction (Some (BlockNumber n)) includeTransactions) s
         = (inr (Some (getRpcBlock block totalDifficulty includeTransactions)), s2,
            [invocation (getBlockByNumber (Some n));
             invocation (getBlockTotalDifficulty block)]))
  /\ (forall n s1,
         @h _ (getBlockByNumber (Some n)) s = (inr None, s1) ->
         run h (_getBlockByNumberAction (Some (BlockNumber n)) includeTransactions) s
         = (inr None, s1, [invocation (getBlockByNumber (Some n))])).
Proof.
  unfold _getBlockByNumberAction. split; [| split; [| split]].
  - intros tag [-> | ->]; reflexivity.
  - intros block totalDifficulty s1 s2 Hlatest Hdifficulty.
    run_steps. reflexivity.
  - intros n block totalDifficulty s1 s2 Hblock Hdifficulty.
    run_steps. reflexivity.
  - intros n s1 Hblock. run_steps. reflexivity.
Qed.

(** X7. A block hash that the node does not know is not an error:
    [eth_getBlockByHash] and [eth_getBlockTransactionCountByHash] return
    [null] after the single call that looks the block up, and no total
    difficulty is asked for; so does [eth_getTransactionByBlockHashAndIndex]
    for an index below 2^53.  From 2^53 on the conversion of the index
    throws first, and the block is not looked up. *)
Theorem unknown_block_hash_is_null (s s' : S) (hash : Buffer) :
  @h _ (getBlockByHash hash) s = (inr None, s') ->
  (forall includeTransactions,
      run h (_getBlockByHashAction hash includeTransactions) s
      = (inr None, s', [invocation (getBlockByHash hash)]))
  /\ run h (_getBlockTransactionCountByHashAction hash) s
     = (inr None, s', [invocation (getBlockByHash hash)])
  /\ (forall index, (index < UNSAFE_NUMBER)%N ->
         run h (_getTransactionByBlockHashAndIndexAction hash index) s
         = (inr None, s', [invocation (getBlockByHash hash)]))
  /\ (forall index, (UNSAFE_NUMBER <= index)%N ->
         run h (_getTransactionByBlockHashAndIndexAction hash index) s
         = (inl (JsError "Number can only safely store up to 53 bits"), s, [])).
Proof.
  intros Hnone.
  unfold _getBlockByHashAction, _getBlockTransactionCountByHashAction,
    _getTransactionByBlockHashAndIndexAction.
  split; [| split; [| split]].
  - intros includeTransactions. run_steps. reflexivity.
  - run_steps. reflexivity.
  - intros index Hsafe. rewrite (BN_toNumber_safe Hsafe). run_steps. reflexivity.
  - intros index Hunsafe. rewrite (BN_toNumber_unsafe Hunsafe). reflexivity.
Qed.

(** X8. The transaction of a block at an index, by block hash and by block
    number.  For an index below 2^53 and with the block found, the result is
    the transaction at that position of the block, presented with the block
    and the index, and it is [null] exactly when the index is not below the
    number of transactions of the block.  For an index from 2^53 on, both
    methods throw on the conversion of the index, before the node is asked
    for the block. *)
Theorem transaction_by_block_and_index (s s' : S) (block : Block) (index : BN) :
  let found :=
    option_map
      (fun tx => getRpcTransaction tx (Some block) (Some (Z.of_N index)))
      (nth_error (Block_transactions block) (N.to_nat index)) in
  (forall hash,
      (index < UNSAFE_NUMBER)%N ->
      @h _ (getBlockByHash hash) s = (inr (Some block), s') ->
      run h (_getTransactionByBlockHashAndIndexAction hash index) s
      = (inr found, s', [invocation (getBlockByHash hash)]))
  /\ (forall blockNumber,
         (index < UNSAFE_NUMBER)%N ->
         @h _ (getBlockByNumber (Some blockNumber)) s = (inr (Some block), s') ->
         run h (_getTransactionByBlockNumberAndIndexAction blockNumber index) s
         = (inr found, s', [invocation (getBlockByNumber (Some blockNumber))]))
  /\ (found = None <-> length (Block_transactions block) <= N.to_nat index)
  /\ (forall hash,
         (UNSAFE_NUMBER <= index)%N ->
         run h (_getTransactionByBlockHashAndIndexAction hash index) s
         = (inl (JsError "Number can only safely store up to 53 bits"), s, []))
  /\ (forall blockNumber,
         (UNSAFE_NUMBER <= index)%N ->
         run h (_getTransactionByBlockNumberAndIndexAction blockNumber index) s
         = (inl (JsError "Number can only safely store up to 53 bits"), s, [])).
Proof.
  intros found.
  unfold _getTransactionByBlockHashAndIndexAction,
    _getTransactionByBlockNumberAndIndexAction.
  split; [| split; [| split; [| split]]].
  - intros hash Hsafe Hblock. rewrite (BN_toNumber_safe Hsafe). run_steps.
    rewrite at_index_of_N. subst found.
    destruct (nth_error (Block_transactions block) (N.to_nat index)); reflexivity.
  - intros blockNumber Hsafe Hblock. rewrite (BN_toNumber_safe Hsafe). run_steps.
    rewrite at_index_of_N. subst found.
    destruct (nth_error (Block_transactions block) (N.to_nat index)); reflexivity.
  - subst found. rewrite <- nth_error_None.
    destruct (nth_error (Block_transactions block) (N.to_nat index)); cbn;
      split; intros H; try reflexivity; discriminate H.
  - intros hash Hunsafe. rewrite (BN_toNumber_unsafe Hunsafe). reflexivity.
  - intros blockNumber Hunsafe. rewrite (BN_toNumber_unsafe Hunsafe). reflexivity.
Qed.

(** X9. [eth_getTransactionByHash]: a hash that the node has no successful
    transaction for gives [null] without looking for a block.  Otherwise the
    transaction is presented with the block the node reports for it and with
    an index: the position of the first transaction of that block whose hash
    is the requested one, or no index when the block holds none (or the node
    reports no block). *)
Theorem getTransactionByHash_index (s : S) (hash : Buffer) :
  (forall s1, @h _ (getSuccessfulTransactionByHash hash) s = (inr None, s1) ->
     run h (_getTransactionByHashAction hash) s
     = (inr None, s1, [invocation (getSuccessfulTransactionByHash hash)]))
  /\ (forall tx block s1 s2,
         @h _ (getSuccessfulTransactionByHash hash) s = (inr (Some tx), s1) ->
         @h _ (getBlockByTransactionHash hash) s1 = (inr block, s2) ->
         exists index,
           run h (_getTransactionByHashAction hash) s
           = (inr (Some (getRpcTransaction tx block index)), s2,
              [invocation (getSuccessfulTransactionByHash hash);
               invocation (getBlockByTransactionHash hash)])
           /\ match block, index with
              | Some b, Some i =>
                  (0 <= i)%Z
                  /\ (exists bt, at_index (Block_transactions b) i = Some bt
                                 /\ Transaction_hash bt = hash)
                  /\ (forall j bt, (0 <= j < i)%Z ->
                                   at_index (Block_transactions b) j = Some bt ->
                                   Transaction_hash bt <> hash)
              | Some b, None =>
                  forall bt, In bt (Block_transactions b) -> Transaction_hash bt <> hash
              | None, None => True
              | None, Some _ => False
              end).
Proof.
  unfold _getTransactionByHashAction. split.
  - intros s1 Hnone. run_steps. reflexivity.
  - intros tx block s1 s2 Htx Hblock. run_steps.
    eexists. split; [reflexivity|].
    destruct block as [b|]; [| exact I].
    destruct (findIndex_cases
                (fun bt => Buffer_equals (Transaction_hash bt) hash)
                (Block_transactions b)) as [[Hnone Hall] | [Hpos [[bt [Hat Hp]] Hbefore]]].
    + rewrite Hnone. cbn. intros bt Hin Heq.
      specialize (Hall bt Hin). cbn beta in Hall.
      apply Buffer_equals_true in Heq. rewrite Heq in Hall. discriminate Hall.
    + destruct (Z.eqb_spec
                  (findIndex (fun bt => Buffer_equals (Transaction_hash bt) hash)
                     (Block_transactions b)) (-1)) as [Hminus | _]; [lia|].
      split; [exact Hpos|]. split.
      * exists bt. split; [exact Hat | apply Buffer_equals_true; exact Hp].
      * intros j bt' Hj Hat' Heq. specialize (Hbefore j bt' Hj Hat').
        cbn beta in Hbefore. apply Buffer_equals_true in Heq.
        rewrite Heq in Hbefore. discriminate Hbefore.
Qed.

(** X10. [eth_getTransactionReceipt]: a hash that the node has no successful
    transaction for gives [null] after that single call (no receipt for a
    failed or unknown transaction).  Otherwise the receipt is made from the
    transaction, its block, the results of the block, and an index that is
    the position of the first transaction of the block with that hash (the
    transaction there has the hash and none at an earlier position has), or
    [-1] when the block holds none. *)
Theorem getTransactionReceipt_index (s : S) (hash : Buffer) :
  (forall s1, @h _ (getSuccessfulTransactionByHash hash) s = (inr None, s1) ->
     run h (_getTransactionReceiptAction hash) s
     = (inr None, s1, [invocation (getSuccessfulTransactionByHash hash)]))
  /\ (forall tx block results s1 s2 s3,
         @h _ (getSuccessfulTransactionByHash hash) s = (inr (Some tx), s1) ->
         @h _ (getBlockByTransactionHash hash) s1 = (inr (Some block), s2) ->
         @h _ (getTxBlockResults block) s2 = (inr results, s3) ->
         exists index,
           run h (_getTransactionReceiptAction hash) s
           = (inr (Some (getRpcTransactionReceipt tx block index results)), s3,
              [invocation (getSuccessfulTransactionByHash hash);
               invocation (getBlockByTransactionHash hash);
               invocation (getTxBlockResults block)])
           /\ ((index = (-1)%Z
                /\ forall bt, In bt (Block_transactions block) ->
                              Transaction_hash bt <> hash)
               \/ ((0 <= index)%Z
                   /\ (exists bt, at_index (Block_transactions block) index = Some bt
                                  /\ Transaction_hash bt = hash)
                   /\ (forall j bt, (0 <= j < index)%Z ->
                                    at_index (Block_transactions block) j = Some bt ->
                                    Transaction_hash bt <> hash)))).
Proof.
  unfold _getTransactionReceiptAction. split.
  - intros s1 Hnone. run_steps. reflexivity.
  - intros tx block results s1 s2 s3 Htx Hblock Hresults.
    run_steps.
    eexists. split; [reflexivity|].
    destruct (findIndex_cases
                (fun bt => Buffer_equals (Transaction_hash bt) hash)
                (Block_transactions block))
      as [[Hnone Hall] | [Hpos [[bt [Hat Hp]] Hbefore]]].
    + left. split; [exact Hnone|]. intros bt Hin Heq.
      specialize (Hall bt Hin). cbn beta in Hall.
      apply Buffer_equals_true in Heq. rewrite Heq in Hall. discriminate Hall.
    + right. split; [exact Hpos|]. split.
      * exists bt. split; [exact Hat | apply Buffer_equals_true; exact Hp].
      * intros j bt' Hj Hat' Heq. specialize (Hbefore j bt' Hj Hat').
        cbn beta in Hbefore. apply Buffer_equals_true in Heq.
        rewrite Heq in Hbefore. discriminate Hbefore.
Qed.

(** X11. A filter id below 2^53 that the node does not know is not an error:
    [eth_getFilterChanges] and [eth_getFilterLogs] return [null]; what the
    node has for a known id is returned as it is.  In both cases the node is
    asked once, about the id of the request.  For an id from 2^53 on, both
    methods throw on the conversion of the id and the node is not asked. *)
Theorem filter_polling (s s' : S) (filterId : BN) :
  ((filterId < UNSAFE_NUMBER)%N ->
   (@h _ (getFilterChanges (Z.of_N filterId)) s = (inr None, s') ->
    run h (_getFilterChangesAction filterId) s
    = (inr None, s', [invocation (getFilterChanges (Z.of_N filterId))]))
   /\ (forall changes,
          @h _ (getFilterChanges (Z.of_N filterId)) s = (inr (Some changes), s') ->
          run h (_getFilterChangesAction filterId) s
          = (inr (Some changes), s', [invocation (getFilterChanges (Z.of_N filterId))]))
   /\ (@h _ (getFilterLogs (Z.of_N filterId)) s = (inr None, s') ->
       run h (_getFilterLogsAction filterId) s
       = (inr None, s', [invocation (getFilterLogs (Z.of_N filterId))]))
   /\ (forall logs,
          @h _ (getFilterLogs (Z.of_N filterId)) s = (inr (Some logs), s') ->
          run h (_getFilterLogsAction filterId) s
          = (inr (Some logs), s', [invocation (getFilterLogs (Z.of_N filterId))])))
  /\ ((UNSAFE_NUMBER <= filterId)%N ->
      run h (_getFilterChangesAction filterId) s
      = (inl (JsError "Number can only safely store up to 53 bits"), s, [])
      /\ run h (_getFilterLogsAction filterId) s
         = (inl (JsError "Number can only safely store up to 53 bits"), s, [])).
Proof.
  unfold _getFilterChangesAction, _getFilterLogsAction. split.
  - intros Hsafe. rewrite (BN_toNumber_safe Hsafe).
    repeat split; intros; run_steps; reflexivity.
  - intros Hunsafe. rewrite (BN_toNumber_unsafe Hunsafe). split; reflexivity.
Qed.

End LookupFacts.

Lemma unknown_block_hash_is_null_witness :
  (forall includeTransactions,
      run Demo.node
        (_getBlockByHashAction (ext := Demo.externals) [x99] includeTransactions)
        Demo.start
      = (inr None, Demo.start, [invocation (getBlockByHash [x99])]))
  /\ run Demo.node (_getBlockTransactionCountByHashAction (ext := Demo.externals) [x99])
       Demo.start
     = (inr None, Demo.start, [invocation (getBlockByHash [x99])])
  /\ run Demo.node
       (_getTransactionByBlockHashAndIndexAction (ext := Demo.externals) [x99] 0%N)
       Demo.start
     = (inr None, Demo.start, [invocation (getBlockByHash [x99])])
  /\ run Demo.node
       (_getTransactionByBlockHashAndIndexAction (ext := Demo.externals) [x99]
          9007199254740992%N)
       Demo.start
     = (inl (JsError "Number can only safely store up to 53 bits"), Demo.start, []).
Proof.
  destruct (@unknown_block_hash_is_null Demo.externals _ Demo.node Demo.start Demo.start
              [x99] eq_refl) as (Hblock & Hcount & Hsafe & Hunsafe).
  refine (conj Hblock (conj Hcount (conj (Hsafe 0%N eq_refl) (Hunsafe _ _)))).
  discriminate.
Defined.

(** ** The callback of a subscription *)

Section CallbackFacts.

Context {ext : Externals}.

Lemma subscribeParams_inv (params : list JsValue) (subscribeRequest : RpcSubscribeRequest)
  (optionalFilterRequest : OptionalRpcFilterRequest) (callback : Callback) :
  _subscribeParams params = inr (subscribeRequest, optionalFilterRequest, callback) ->
  2 <= length params
  /\ last params JUndefined = JFunction callback
  /\ validateParams [rpcSubscribeRequest; optionalRpcFilterRequest] (removelast params)
     = inr (subscribeRequest, (optionalFilterRequest, tt)).
Proof.
  unfold _subscribeParams. intros H.
  destruct (Nat.eqb_spec (length params) 0); [discriminate H|].
  destruct (Nat.eqb_spec (length params) 1); [discriminate H|].
  destruct (last params JUndefined); try discriminate H.
  destruct (validateParams _ _) as [e | [req [flt []]]]; [discriminate H|].
  injection H as <- <- <-. repeat split. lia.
Qed.

Lemma subscribeAction_callbacks (subscribeRequest : RpcSubscribeRequest)
  (optionalFilterRequest : OptionalRpcFilterRequest) (callback : Callback) :
  AllCalls (fun i => forall cb, callbackOf i = Some cb -> cb = callback)
    (_subscribeAction subscribeRequest optionalFilterRequest callback).
Proof.
  autounfold with eth.
  repeat first
    [ apply AllCalls_Ret
    | apply AllCalls_Throw
    | apply AllCalls_lift
    | apply AllCalls_await; intros cb Hcb; cbn in Hcb;
      first [discriminate Hcb | injection Hcb as <-; reflexivity]
    | apply AllCalls_bind; [| intros]
    | match goal with
      | |- AllCalls _ (match ?x with _ => _ end) => destruct x
      end ].
Qed.

(** X12. In an [eth_subscribe] request, a callback that reaches the node (with
    [newBlockFilter], [newPendingTransactionFilter] or [newFilter]) is always
    the last argument of the request, and the request has at least a
    subscription name before it. *)
Theorem subscribe_callback_is_last_argument (S : Type) (h : Handler S) (s : S)
  (params : list JsValue) (i : Invocation) (callback : Callback) :
  In i (calls h (processRequest "eth_subscribe" (Some params)) s) ->
  callbackOf i = Some callback ->
  last params JUndefined = JFunction callback /\ 2 <= length params.
Proof.
  intros Hin Hcb. apply calls_Calls in Hin. revert Hin.
  cbv beta iota zeta delta [processRequest String.eqb Ascii.eqb Bool.eqb].
  destruct (_subscribeParams params) as [e | [[req flt] cb]] eqn:Hparams;
    cbn [invoke]; intros Hin.
  - inversion Hin.
  - destruct (subscribeParams_inv params Hparams) as [Hlen [Hlast _]].
    assert (Hall : AllCalls (fun i => forall c, callbackOf i = Some c -> c = cb)
                     (mapP ResString (_subscribeAction req flt cb)))
      by (apply AllCalls_mapP, subscribeAction_callbacks).
    rewrite (Hall i Hin callback Hcb). split; assumption.
Qed.

End CallbackFacts.

Lemma subscribe_callback_is_last_argument_witness :
  let params := [JString "newPendingTransactions"; JFunction 9] in
  let i := invocation (@newPendingTransactionFilter Demo.externals (Some 9)) in
  In i (calls Demo.node (processRequest "eth_subscribe" (Some params)) Demo.start)
  /\ callbackOf i = Some 9
  /\ last params JUndefined = JFunction 9 /\ 2 <= length params.
Proof.
  intros params i.
  assert (Hin : In i (calls Demo.node (processRequest "eth_subscribe" (Some params))
                        Demo.start)) by (left; reflexivity).
  split; [exact Hin|]. split; [reflexivity|].
  exact (@subscribe_callback_is_last_argument Demo.externals _ Demo.node Demo.start
           params i 9 Hin eq_refl).
Defined.

(** ** The node calls of the filter normalisation, and the two tag policies *)

Section NormalizationFacts.

Context {ext : Externals}.

(** X13. The normalisation of a filter request asks the node at most one
    question, and only for the block of the [blockHash] of the request: a
    request without [blockHash] is normalised, or rejected, without any call
    and leaves the node in its state. *)
Theorem filter_normalization_calls (S : Type) (h : Handler S) (s : S)
  (filter : RpcFilterRequest) :
  (filter_blockHash filter = None ->
   calls h (_rpcFilterRequestToGetLogsParams filter) s = []
   /\ snd (fst (run h (_rpcFilterRequestToGetLogsParams filter) s)) = s)
  /\ (forall hash, filter_blockHash filter = Some hash ->
        calls h (_rpcFilterRequestToGetLogsParams filter) s = []
        \/ calls h (_rpcFilterRequestToGetLogsParams filter) s
           = [invocation (getBlockByHash hash)]).
Proof.
  unfold calls. split.
  - intros Hhash. rewrite (filter_without_blockHash filter Hhash).
    destruct (_extractBlock (filter_fromBlock filter)); [split; reflexivity|].
    destruct (_extractBlock (filter_toBlock filter)); split; reflexivity.
  - intros hash Hhash. unfold _rpcFilterRequestToGetLogsParams. rewrite Hhash.
    destruct (isSome (filter_fromBlock filter) || isSome (filter_toBlock filter))%bool;
      [left; reflexivity|].
    right. cbn [bind await run].
    destruct (h _ (getBlockByHash hash) s) as [[e | [block|]] s']; try reflexivity.
    cbn [bind setBlockRange filter_fromBlock filter_toBlock _extractBlock].
    destruct (BN_toNumber (BN_ofBuffer (Block_header_number block))); reflexivity.
Qed.

(** X14. The two policies on block tags overlap only on the head of the
    chain: a tag that both the state-reading methods ([_validateBlockTag])
    and the filter ranges ([_extractBlock]) accept is absent or "latest", and
    the range end it stands for is the sentinel of the head; both accept
    these two.  "pending" is accepted by the first and rejected by the
    second; "earliest" and the block numbers below 2^53 are rejected by the
    first and accepted by the second, as block 0 and as the number itself.
    A block number from 2^53 on is rejected by both. *)
Theorem blockTag_policies_overlap :
  (forall (blockTag : OptionalBlockTag) (resolved : number),
      _validateBlockTag blockTag = inr tt ->
      _extractBlock blockTag = inr resolved ->
      (blockTag = None \/ blockTag = Some Latest) /\ resolved = LATEST_BLOCK)
  /\ (forall blockTag : OptionalBlockTag,
         blockTag = None \/ blockTag = Some Latest ->
         _validateBlockTag blockTag = inr tt
         /\ _extractBlock blockTag = inr LATEST_BLOCK)
  /\ (_validateBlockTag (Some Pending) = inr tt
      /\ _extractBlock (Some Pending)
         = inl (InvalidArgumentsError "pending not supported"))
  /\ (_validateBlockTag (Some Earliest)
      = inl (InvalidInputError "Only latest and pending block params are supported")
      /\ _extractBlock (Some Earliest) = inr 0%Z)
  /\ (forall n : BN,
         _validateBlockTag (Some (BlockNumber n))
         = inl (InvalidInputError "Only latest and pending block params are supported")
         /\ ((n < UNSAFE_NUMBER)%N ->
             _extractBlock (Some (BlockNumber n)) = inr (Z.of_N n))
         /\ ((UNSAFE_NUMBER <= n)%N ->
             forall resolved, _extractBlock (Some (BlockNumber n)) <> inr resolved)).
Proof.
  split; [| split; [| split; [| split]]].
  - intros [[n| | |]|] resolved; cbn; intros Hv He;
      try discriminate Hv; try discriminate He;
      injection He as <-; split; auto.
  - intros blockTag [-> | ->]; split; reflexivity.
  - split; reflexivity.
  - split; reflexivity.
  - intros n. split; [reflexivity|]. split.
    + intros Hsafe. cbn [_extractBlock]. apply BN_toNumber_safe. exact Hsafe.
    + intros Hunsafe resolved. cbn [_extractBlock].
      rewrite (BN_toNumber_unsafe Hunsafe). discriminate.
Qed.

(** X15. The module answers for the [eth_] namespace only: a method name that
    does not start with [eth_] fails with MethodNotFound, whatever the
    arguments. *)
Theorem other_namespaces_not_found (method : string) (params : option (list JsValue)) :
  String.prefix "eth_" method = false ->
  processRequest method params
  = Throw (MethodNotFoundError ("Method " ++ method ++ " not found")).
Proof.
  intros Hprefix. unfold processRequest.
  repeat match goal with
         | |- context [String.eqb method ?name] =>
             destruct (String.eqb_spec method name) as [-> | _];
             [discriminate Hprefix|]
         end.
  reflexivity.
Qed.

End NormalizationFacts.

Lemma blockTag_policies_overlap_witness :
  (Some Latest = None \/ Some Latest = Some Latest) /\ LATEST_BLOCK = LATEST_BLOCK.
Proof.
  exact (proj1 blockTag_policies_overlap (Some Latest) LATEST_BLOCK
           eq_refl eq_refl).
Defined.

Lemma other_namespaces_not_found_witness :
  processRequest (ext := Demo.externals) "net_version" None
  = Throw (MethodNotFoundError "Method net_version not found").
Proof.
  exact (@other_namespaces_not_found Demo.externals "net_version" None eq_refl).
Defined.

(** ** Requests that do not reach the node *)

Section LocalFacts.

Context {ext : Externals}.

Lemma run_without_calls {S A : Type} (h : Handler S) (p : Prog A) (s : S) :
  AllCalls (fun _ => False) p -> exists r, run h p s = (r, s, []).
Proof.
  intros Hnone. destruct p as [a | e | X c k]; cbn [run].
  - eexists. reflexivity.
  - eexists. reflexivity.
  - destruct (Hnone (invocation c)). constructor.
Qed.

Lemma local_methods_make_no_call (method : string) (params : option (list JsValue)) :
  In method localMethods \/ ~ In method supportedMethods ->
  AllCalls (fun _ => False) (processRequest method params).
Proof.
  intros [Hlocal | Hnot].
  - cbn [In localMethods] in Hlocal.
    repeat (destruct Hlocal as [<- | Hlocal]); [.. | contradiction];
      cbv beta iota zeta delta [processRequest String.eqb Ascii.eqb Bool.eqb];
      apply AllCalls_invoke; intros a; autounfold with eth; apply AllCalls_Ret.
  - destruct (in_dec string_dec method unsupportedMethods) as [Hu | Hu].
    + rewrite (unsupported_fails params Hu). apply AllCalls_Throw.
    + rewrite (unknown_fails params Hnot Hu). apply AllCalls_Throw.
Qed.

(** X16. [eth_chainId], [eth_mining] and [eth_syncing] answer without the
    node, and so does every request for a method that is not supported:
    against any node and from any state, such a request makes no call and
    leaves the state of the node as it was. *)
Theorem methods_without_node (S : Type) (h : Handler S) (s : S) (method : string)
  (params : option (list JsValue)) :
  In method localMethods \/ ~ In method supportedMethods ->
  exists r, run h (processRequest method params) s = (r, s, []).
Proof.
  intros H. apply run_without_calls. apply local_methods_make_no_call. exact H.
Qed.

End LocalFacts.

Lemma methods_without_node_witness :
  exists r,
    run Demo.node (processRequest (ext := Demo.externals) "eth_mining" None) Demo.start
    = (r, Demo.start, []).
Proof.
  apply (@methods_without_node Demo.externals _ Demo.node Demo.start "eth_mining" None).
  left. cbn. auto.
Defined.
